(** * ytquery: the YouTube channel discovery pipeline of [main.py]

    A shallow embedding of [search_new_videos], [get_channel_details],
    [collect_new_channels], [filter_and_save_channels] and [main], and the
    properties of the pipeline that its specification states.

    Conventions.
    - Values decoded from the remote service are [json] trees; Python's
      [dict.get], iteration and truthiness are written out on them, with the
      exceptions they raise.
    - Effects (clock reads, remote calls, printed diagnostics, files) are
      threaded through a [world]; a computation returns an [outcome] and
      the world it leaves behind, also when it raises.
    - Instants are integers (nanoseconds since the epoch).  The age column
      and [max_age_days] are IEEE 754 binary64 numbers: the division by
      [24 * 3600] and the comparison [<=] are those of the standard, rounding
      and [NaN] included.
    - pandas works on whole columns, and a call into it may raise.  The
      three calls whose behaviour the program merely relies on
      ([pd.to_datetime] of a column, the difference of two datetime columns
      read as seconds, [pd.to_numeric] of a column) are variables of the
      section that holds the program; so are [isoformat], [strftime], the
      order in which a set is iterated, the remote service and the clock. *)

From Stdlib Require Import ZArith QArith List String Ascii Lia Permutation.
From Stdlib Require Import Floats.SpecFloat.
From stdpp Require Import base option list strings gmap.

Local Open Scope string_scope.
Local Open Scope list_scope.
Local Open Scope Z_scope.

(** ** Python values and exceptions *)

Module Py.

(** A decoded JSON document, as [googleapiclient] hands it to the script.
    Numbers are integers: the fields the script reads carry strings, and the
    only numbers it puts in itself are the integer defaults. *)
#[local] Unset Elimination Schemes.
Inductive json : Type :=
| JNull
| JBool (b : bool)
| JNum (z : Z)
| JStr (s : string)
| JList (l : list json)
| JDict (d : list (string * json)).
#[local] Set Elimination Schemes.

(** The exceptions that occur in the program.  [HttpError] and
    [RemoteFailure] are what a remote call can raise (the latter stands for
    every other [Exception] of the transport); the rest are raised by the
    interpreter or by pandas. *)
Inductive exn : Type :=
| HttpError (msg : string)
| RemoteFailure (msg : string)
| AttributeError
| TypeError
| RuntimeError (msg : string)
| ValueError
| OverflowError
| IntCastingNaNError.

Inductive outcome (A : Type) : Type :=
| Ok (a : A)
| Raise (e : exn).
Arguments Ok {A} a.
Arguments Raise {A} e.

(** The value a decoded object holds for a key. *)
Fixpoint assoc (d : list (string * json)) (key : string) : option json :=
  match d with
  | [] => None
  | (k, v) :: rest => if String.eqb k key then Some v else assoc rest key
  end.

(** [d.get(key, default)] on the entries of a dict. *)
Definition lookup (d : list (string * json)) (key : string) (default : json) : json :=
  match assoc d key with
  | Some v => v
  | None => default
  end.

(** [o.get(key, default)]: only a dict has the method. *)
Definition get (o : json) (key : string) (default : json) : outcome json :=
  match o with
  | JDict d => Ok (lookup d key default)
  | _ => Raise AttributeError
  end.

(** [bool(o)]. *)
Definition truthy (o : json) : bool :=
  match o with
  | JNull => false
  | JBool b => b
  | JNum z => negb (z =? 0)%Z
  | JStr s => negb (String.eqb s "")
  | JList l => match l with [] => false | _ => true end
  | JDict d => match d with [] => false | _ => true end
  end.

(** [for item in o]: a list yields its elements, a dict its keys, a string
    its characters; anything else is not iterable. *)
Definition iter (o : json) : outcome (list json) :=
  match o with
  | JList l => Ok l
  | JDict d => Ok (map (fun kv => JStr (fst kv)) d)
  | JStr s => Ok (map (fun c => JStr (String c EmptyString)) (list_ascii_of_string s))
  | _ => Raise TypeError
  end.

(** [sep.join(items)]: every item has to be a [str]. *)
Fixpoint join (sep : string) (items : list json) : outcome string :=
  match items with
  | [] => Ok ""
  | JStr s :: rest =>
      match rest with
      | [] => Ok s
      | _ => match join sep rest with
             | Ok t => Ok (s ++ sep ++ t)%string
             | Raise e => Raise e
             end
      end
  | _ :: _ => Raise TypeError
  end.

(** Hashing and equality of set members: [True == 1], lists and dicts are
    unhashable. *)
Inductive hkey : Type :=
| KNone
| KNum (z : Z)
| KStr (s : string).

Global Instance hkey_eq_dec : EqDecision hkey.
Proof. solve_decision. Defined.

Definition hash_key (o : json) : option hkey :=
  match o with
  | JNull => Some KNone
  | JBool b => Some (KNum (if b then 1 else 0))
  | JNum z => Some (KNum z)
  | JStr s => Some (KStr s)
  | JList _ | JDict _ => None
  end.

(** A [set]: its members in insertion order, pairwise different as keys. *)
Definition pyset : Type := list json.

(** [x in s], by the key of [x]. *)
Definition member (k : hkey) (s : pyset) : bool :=
  bool_decide (Some k ∈ map hash_key s).

(** [s.add(x)]: an element equal to a member leaves the set as it is. *)
Definition set_add (s : pyset) (x : json) : outcome pyset :=
  match hash_key x with
  | None => Raise TypeError
  | Some k => Ok (if member k s then s else s ++ [x])
  end.

(** [s.update(xs)]. *)
Fixpoint set_update (s : pyset) (xs : list json) : outcome pyset :=
  match xs with
  | [] => Ok s
  | x :: rest =>
      match set_add s x with
      | Ok s' => set_update s' rest
      | Raise e => Raise e
      end
  end.

(** [range(0, stop, step)] for a positive step. *)
Definition range0 (stop step : nat) : list nat :=
  map (fun k => (k * step)%nat) (seq 0 ((stop + step - 1) / step)%nat).

(** [l[i:j]] for [0 <= i <= j]. *)
Definition slice {A} (l : list A) (i j : nat) : list A :=
  firstn (j - i) (skipn i l).

(** Sequencing of two steps that may raise. *)
Definition and_then {A B} (r : outcome A) (k : A -> outcome B) : outcome B :=
  match r with
  | Ok a => k a
  | Raise e => Raise e
  end.

End Py.
Export Py.

(** ** float64 *)

(** Python's [float] and NumPy's [float64]: IEEE 754 binary64, with the
    operations the script uses.  A float64 is a [spec_float] in canonical
    form ([valid_binary] at precision 53); the operations below give
    canonical results on canonical arguments, and what is proved of them
    holds of every [spec_float]. *)
Definition float : Type := spec_float.

Module F64.

Definition prec : Z := 53.
Definition emax : Z := 1024.

(** [float(z)], rounded to nearest even. *)
Definition of_Z (z : Z) : float := binary_normalize prec emax z 0 false.

(** [x / y], [x <= y], [x < y], [x == y]. *)
Definition div (x y : float) : float := SFdiv prec emax x y.
Definition leb (x y : float) : bool := SFleb x y.
Definition eqb (x y : float) : bool := SFeqb x y.

Definition nan : float := S754_nan.
Definition zero : float := S754_zero false.

(** The place of a number in the order of the comparison; [NaN] has none. *)
Definition rank (x : float) : option (Z * Z * Z) :=
  match x with
  | S754_nan => None
  | S754_infinity true => Some (-2, 0, 0)
  | S754_infinity false => Some (2, 0, 0)
  | S754_zero _ => Some (0, 0, 0)
  | S754_finite true m e => Some (-1, - e, - Zpos m)
  | S754_finite false m e => Some (1, e, Zpos m)
  end.

Definition lex (a b : Z * Z * Z) : comparison :=
  let '(a1, a2, a3) := a in
  let '(b1, b2, b3) := b in
  match a1 ?= b1 with
  | Eq => match a2 ?= b2 with
          | Eq => a3 ?= b3
          | c => c
          end
  | c => c
  end.

(** A number of the given sign: a zero, an infinity or a finite number. *)
Definition signed (s : bool) (x : float) : Prop :=
  x = S754_zero s \/ x = S754_infinity s \/ exists m e, x = S754_finite s m e.

End F64.

(** ** The world the script acts on *)

(** The two requests of the YouTube Data API that the script issues, with
    the arguments it passes. *)
Inductive request : Type :=
| SearchList (q type_ order publishedAfter part : string) (maxResults : Z)
| ChannelsList (id part : string).

(** A client answers the [n]-th call of a run with a decoded response or an
    exception. *)
Definition client : Type := nat -> request -> outcome json.

(** A cell of a written table: an object column keeps the decoded value. *)
Inductive cell : Type :=
| CObj (v : json)
| CInt (n : Z)
| CTime (t : option Z)
| CFloat (x : float).

(** A comma-separated file: its header row and one row of cells per record. *)
Record table : Type := Table { header : list string; body : list (list cell) }.

(** The lines the script prints. *)
Inductive message : Type :=
| SearchHttpError (query : string) (e : exn)
    (* HTTP error during search for query '{query}': {e} *)
| SearchUnexpectedError (query : string) (e : exn)
    (* Unexpected error during search for query '{query}': {e} *)
| DetailsHttpError (e : exn)
    (* HTTP error retrieving channel details: {e} *)
| DetailsUnexpectedError (e : exn)
    (* Unexpected error retrieving channel details: {e} *)
| NoChannelData
    (* No channel data collected; nothing to save. *)
| NoChannelsYounger (max_age_days : float)
    (* No channels younger than {max_age_days} days found. *)
| Saved (n : nat) (filename : string).
    (* Saved {n} new channels to {filename}. *)

Record world : Type := World {
  ticks : nat;                   (* clock reads so far *)
  calls : list request;          (* remote calls issued so far, oldest first *)
  stdout : list message;         (* printed lines, oldest first *)
  files : gmap string table      (* the current directory *)
}.

(** Computations: state passing with exceptions; the world survives a raise. *)
Definition M (A : Type) : Type := world -> outcome A * world.

Definition ret {A} (a : A) : M A := fun w => (Ok a, w).

Definition raise {A} (e : exn) : M A := fun w => (Raise e, w).

Definition bind {A B} (m : M A) (k : A -> M B) : M B :=
  fun w => match m w with
           | (Ok a, w') => k a w'
           | (Raise e, w') => (Raise e, w')
           end.

Definition lift {A} (r : outcome A) : M A := fun w => (r, w).

Notation "x <- m ;; k" := (bind m (fun x => k))
  (at level 100, m at next level, right associativity).
Notation "m ;;; k" := (bind m (fun _ => k))
  (at level 100, right associativity).

Definition print (msg : message) : M unit :=
  fun w => (Ok tt, World (ticks w) (calls w) (stdout w ++ [msg]) (files w)).

(** [request.execute()]: the call is recorded, the client decides the
    answer. *)
Definition execute (youtube : client) (r : request) : M json :=
  fun w => (youtube (length (calls w)) r,
            World (ticks w) (calls w ++ [r]) (stdout w) (files w)).

(** [df.to_csv(filename, index=False)]: an existing file is replaced. *)
Definition to_csv (filename : string) (t : table) : M unit :=
  fun w => (Ok tt, World (ticks w) (calls w) (stdout w) (<[filename := t]> (files w))).

(** [time.sleep(0.1)]: nothing the model observes. *)
Definition sleep : M unit := ret tt.

(** ** pandas values *)

(** The exceptions a call into pandas raises in this program. *)
Inductive pandas_error : Type :=
| PdTypeError
| PdValueError
| PdOverflowError
| PdAttributeError.

Definition exn_of (e : pandas_error) : exn :=
  match e with
  | PdTypeError => TypeError
  | PdValueError => ValueError
  | PdOverflowError => OverflowError
  | PdAttributeError => AttributeError
  end.

(** What a call into pandas gives. *)
Inductive result (A : Type) : Type :=
| Returns (a : A)
| Fails (e : pandas_error).
Arguments Returns {A} a.
Arguments Fails {A} e.

Definition outcome_of {A} (r : result A) : outcome A :=
  match r with
  | Returns a => Ok a
  | Fails e => Raise (exn_of e)
  end.

(** A datetime column: whether its dtype carries a time zone, and its
    instants; [None] is [NaT]. *)
Record datetimes : Type := Datetimes {
  tz_aware : bool;
  instants : list (option Z)
}.

(** An element of a numeric column. *)
Inductive numeric : Type :=
| NaN
| Infinite
| Finite (x : Q).

(** [.fillna(0)]. *)
Definition fillna0 (x : numeric) : numeric :=
  match x with
  | NaN => Finite 0
  | _ => x
  end.

(** The range of [int64]. *)
Definition int64_min : Z := - 2 ^ 63.
Definition int64_max : Z := 2 ^ 63 - 1.

(** A number cut off towards zero. *)
Definition truncate (q : Q) : Z := Z.quot (Qnum q) (Zpos (Qden q)).

(** The dictionary [get_channel_details] builds for a channel. *)
Record channel : Type := Channel {
  channel_id : json;
  channel_title : json;
  published_at : json;
  subscriber_count : json;
  video_count : json;
  view_count : json;
  data_retrieved_at : json
}.

(** A row of the data frame of [filter_and_save_channels]: the record and
    the three computed columns. *)
Record frame_row : Type := FrameRow {
  record : channel;
  published_at_dt : option Z;
  data_retrieved_at_dt : option Z;
  channel_age_days : float
}.

(** The columns of the frame, in the order pandas holds them: the keys of
    the dictionaries, then the columns the function adds. *)
Definition record_fields : list string :=
  ["channel_id"; "channel_title"; "published_at"; "subscriber_count";
   "video_count"; "view_count"; "data_retrieved_at"].

Definition frame_columns : list string :=
  record_fields ++ ["published_at_dt"; "data_retrieved_at_dt"; "channel_age_days"].

(** ** Concrete stand-ins for the library functions

    The instances at which the theorems below are evaluated: the proleptic
    Gregorian calendar for [isoformat], [strftime] and the parsing of ISO
    8601 strings, columns of UTC stamps in one format for [pd.to_datetime],
    and decimal literals for [pd.to_numeric]. *)

Module Sample.

Definition second : Z := 1000000000.
Definition day : Z := 86400 * second.

(** The civil date of a day count since 1970-01-01. *)
Definition civil_of_days (days : Z) : Z * Z * Z :=
  let z := days + 719468 in
  let era := z / 146097 in
  let doe := z - era * 146097 in
  let yoe := (doe - doe / 1460 + doe / 36524 - doe / 146096) / 365 in
  let doy := doe - (365 * yoe + yoe / 4 - yoe / 100) in
  let mp := (5 * doy + 2) / 153 in
  let d := doy - (153 * mp + 2) / 5 + 1 in
  let m := if mp <? 10 then mp + 3 else mp - 9 in
  let y := yoe + era * 400 + (if m <=? 2 then 1 else 0) in
  (y, m, d).

(** The day count since 1970-01-01 of a civil date. *)
Definition days_of_civil (y m d : Z) : Z :=
  let y' := if m <=? 2 then y - 1 else y in
  let era := y' / 400 in
  let yoe := y' - era * 400 in
  let doy := (153 * (if 2 <? m then m - 3 else m + 9) + 2) / 5 + d - 1 in
  let doe := yoe * 365 + yoe / 4 - yoe / 100 + doy in
  era * 146097 + doe - 719468.

Definition digit (n : Z) : ascii := ascii_of_nat (48 + Z.to_nat (n mod 10)).

(** The last [width] decimal digits of [n]. *)
Fixpoint pad (width : nat) (n : Z) : string :=
  match width with
  | O => ""
  | S k => (pad k (n / 10) ++ String (digit n) "")%string
  end.

Definition strftime_Ymd (t : Z) : string :=
  let '(y, m, d) := civil_of_days (t / day) in
  (pad 4 y ++ "-" ++ pad 2 m ++ "-" ++ pad 2 d)%string.

(** [YYYY-MM-DDTHH:MM:SS], followed by [.ffffff] when the microseconds are
    not zero. *)
Definition isoformat (t : Z) : string :=
  let s := (t mod day) / second in
  let us := (t mod second) / 1000 in
  (strftime_Ymd t ++ "T" ++ pad 2 (s / 3600) ++ ":" ++ pad 2 (s / 60 mod 60)
     ++ ":" ++ pad 2 (s mod 60)
     ++ (if (us =? 0)%Z then "" else "." ++ pad 6 us))%string.

Definition digit_val (c : ascii) : option Z :=
  let n := Z.of_nat (nat_of_ascii c) in
  if (48 <=? n) && (n <=? 57) then Some (n - 48) else None.

Fixpoint number (cs : list ascii) (acc : Z) : option Z :=
  match cs with
  | [] => Some acc
  | c :: rest =>
      match digit_val c with
      | Some d => number rest (10 * acc + d)
      | None => None
      end
  end.

Definition field (s : string) (start len : nat) : option Z :=
  number (list_ascii_of_string (substring start len s)) 0.

Definition is_at (s : string) (pos : nat) (sep : string) : bool :=
  String.eqb (substring pos 1 s) sep.

(** An ISO 8601 instant in UTC, with or without microseconds; anything else
    is [NaT]. *)
Definition parse_iso (s : string) : option Z :=
  let n := String.length s in
  if is_at s 4 "-" && is_at s 7 "-" && is_at s 10 "T" && is_at s 13 ":"
     && is_at s 16 ":" && is_at s (n - 1) "Z"
     && ((n =? 20)%nat || ((n =? 27)%nat && is_at s 19 "."))
  then
    match field s 0 4, field s 5 2, field s 8 2,
          field s 11 2, field s 14 2, field s 17 2, field s 20 (n - 21) with
    | Some y, Some m, Some d, Some hh, Some mm, Some ss, Some us =>
        Some (days_of_civil y m d * day + (hh * 3600 + mm * 60 + ss) * second
              + us * 1000)
    | _, _, _, _, _, _, _ => None
    end
  else None.

(** The number of characters of a value that is a stamp. *)
Definition stamp_length (v : json) : option nat :=
  match v with
  | JStr s =>
      match parse_iso s with
      | Some _ => Some (String.length s)
      | None => None
      end
  | _ => None
  end.

(** The format of a column is that of its first stamp. *)
Fixpoint first_format (col : list json) : option nat :=
  match col with
  | [] => None
  | v :: rest =>
      match stamp_length v with
      | Some n => Some n
      | None => first_format rest
      end
  end.

Definition parse (format : nat) (v : json) : option Z :=
  match v with
  | JStr s => if (String.length s =? format)%nat then parse_iso s else None
  | _ => None
  end.

(** A column with a stamp is read in the format of its first stamp and
    carries the time zone UTC; what does not match the format is [NaT].  A
    column without a stamp is [NaT] throughout and carries no time zone. *)
Definition to_datetime (col : list json) : result datetimes :=
  match first_format col with
  | Some format => Returns (Datetimes true (map (parse format) col))
  | None => Returns (Datetimes false (map (fun _ => None) col))
  end.

(** [Timedelta.total_seconds()] of a difference in nanoseconds. *)
Definition total_seconds (ns : Z) : float :=
  F64.div (F64.of_Z ns) (F64.of_Z second).

Fixpoint differences (later earlier : list (option Z)) : list float :=
  match later, earlier with
  | Some t :: later', Some p :: earlier' =>
      total_seconds (t - p) :: differences later' earlier'
  | _ :: later', _ :: earlier' => F64.nan :: differences later' earlier'
  | _, _ => []
  end.

(** [(later - earlier).dt.total_seconds()]: a column with a time zone and
    one without cannot be subtracted. *)
Definition timedelta_seconds (later earlier : datetimes) : result (list float) :=
  if Bool.eqb (tz_aware later) (tz_aware earlier)
  then Returns (differences (instants later) (instants earlier))
  else Fails PdTypeError.

(** Integers and decimal literals are numbers, ["inf"] is infinite, every
    other value is not a number. *)
Definition number_of (v : json) : numeric :=
  match v with
  | JNum z => Finite (inject_Z z)
  | JBool b => Finite (if b then 1 else 0)
  | JStr s =>
      if String.eqb s "inf" then Infinite
      else if String.eqb s "" then NaN
      else match number (list_ascii_of_string s) 0 with
           | Some z => Finite (inject_Z z)
           | None => NaN
           end
  | _ => NaN
  end.

Definition to_numeric (col : list json) : result (list numeric) :=
  Returns (map number_of col).

(** A cast that leaves the range of [int64] gives its least value. *)
Definition int64_wrap (q : Q) : Z := int64_min.

(** A set is iterated in insertion order. *)
Definition list_of_set (s : pyset) : list json := s.

(** 2024-03-05T12:00:00Z. *)
Definition noon : Z := days_of_civil 2024 3 5 * day + 12 * 3600 * second.

(** The clock starts a quarter of a second after noon and advances by a
    millisecond per read. *)
Definition clock (n : nat) : Z := noon + 250000000 + Z.of_nat n * 1000000.

(** A scripted service.  The first query finds two channels, the second
    finds one of them again and an item without a snippet, the third fails,
    the others find nothing.  The detail lookup knows a channel created four
    and a half days before the run, whose counts arrive as the API sends
    them (strings, one of them not a number), and a channel whose creation
    date is missing. *)
Definition found (id : string) : json :=
  JDict [("snippet", JDict [("channelId", JStr id)])].

Definition alpha : json :=
  JDict [("id", JStr "UC_alpha");
         ("snippet", JDict [("title", JStr "Alpha");
                            ("publishedAt", JStr "2024-03-01T00:00:00Z")]);
         ("statistics", JDict [("subscriberCount", JStr "12");
                               ("videoCount", JStr "n/a")])].

Definition beta : json :=
  JDict [("id", JStr "UC_beta");
         ("snippet", JDict [("title", JStr "Beta")]);
         ("statistics", JDict [("subscriberCount", JStr "3");
                               ("videoCount", JStr "1");
                               ("viewCount", JStr "40")])].

Definition youtube : client :=
  fun _ r =>
    match r with
    | SearchList q _ _ _ _ _ =>
        if String.eqb q "first vlog" then
          Ok (JDict [("items", JList [found "UC_alpha"; found "UC_beta"])])
        else if String.eqb q "new channel" then
          Ok (JDict [("items", JList [found "UC_beta"; JDict []])])
        else if String.eqb q "hello everyone" then
          Raise (HttpError "quotaExceeded")
        else Ok (JDict [])
    | ChannelsList _ _ => Ok (JDict [("items", JList [alpha; beta])])
    end.

Definition build (api_key : string) : client := youtube.

Definition start : world := World 0 [] [] ∅.

(** Records with given creation and retrieval stamps. *)
Definition stamped (id published retrieved : string) : channel :=
  Channel (JStr id) (JStr "") (JStr published) (JNum 0) (JNum 0) (JNum 0)
    (JStr retrieved).

Definition exactly_30 : channel :=
  stamped "UC_exact" "2024-02-04T12:00:00Z" "2024-03-05T12:00:00.000000Z".

Definition over_30 : channel :=
  stamped "UC_over" "2024-02-04T12:00:00Z" "2024-03-05T12:00:00.000001Z".

(** A record whose creation date is missing. *)
Definition undated : channel :=
  stamped "UC_undated" "" "2024-03-05T12:00:00.250000Z".

(** 120 different IDs. *)
Definition ids120 : list json :=
  map (fun k => JStr ("UC" ++ pad 3 (Z.of_nat k))%string) (seq 0 120).

Definition no_env : string -> option string := fun _ => None.

Definition key_env : string -> option string :=
  fun name => if String.eqb name "YOUTUBE_API_KEY" then Some "AIza-sample" else None.

End Sample.

(** More scripted services and records, for the further properties. *)
Module Probe.

(** A service whose detail lookup fails. *)
Definition no_details : client :=
  fun _ r =>
    match r with
    | ChannelsList _ _ => Raise (HttpError "backendError")
    | SearchList _ _ _ _ _ _ => Ok (JDict [])
    end.

(** An item whose snippet is [null]. *)
Definition broken : json := JDict [("id", JStr "UC_x"); ("snippet", JNull)].

(** A service whose detail lookup returns a broken item between two good
    ones. *)
Definition one_broken : client :=
  fun _ _ => Ok (JDict [("items", JList [Sample.alpha; broken; Sample.beta])]).

(** A service whose first search result carries a list as channel ID. *)
Definition list_id : client :=
  fun _ _ =>
    Ok (JDict [("items",
          JList [JDict [("snippet", JDict [("channelId", JList [JStr "UC"])])]])]).

(** A service whose search answers with a list instead of an object. *)
Definition bare_list : client := fun _ _ => Ok (JList []).

(** A service whose search returns a hit, an item with a [null] snippet,
    and another hit. *)
Definition one_bad_hit : client :=
  fun _ _ =>
    Ok (JDict [("items",
          JList [Sample.found "UC_alpha"; broken; Sample.found "UC_beta"])]).

(** A record retrieved half a day before its creation date. *)
Definition future : channel :=
  Sample.stamped "UC_future" "2024-03-06T00:00:00Z" "2024-03-05T12:00:00.000000Z".

(** A fresh record with an infinite subscriber count. *)
Definition boundless : channel :=
  Channel (JStr "UC_inf") (JStr "") (JStr "2024-03-01T00:00:00Z")
    (JStr "inf") (JNum 0) (JNum 0) (JStr "2024-03-05T12:00:00.000000Z").

(** A fresh record with more subscribers than [int64] holds, and one with a
    negative count. *)
Definition crowded : channel :=
  Channel (JStr "UC_big") (JStr "") (JStr "2024-03-01T00:00:00Z")
    (JStr "9223372036854775808") (JNum (-5)) (JNum 0)
    (JStr "2024-03-05T12:00:00.000000Z").

(** A service that knows one channel, without its creation date. *)
Definition undated_only : client :=
  fun _ r =>
    match r with
    | SearchList q _ _ _ _ _ =>
        if String.eqb q "first vlog" then
          Ok (JDict [("items", JList [Sample.found "UC_beta"])])
        else Ok (JDict [])
    | ChannelsList _ _ => Ok (JDict [("items", JList [Sample.beta])])
    end.

(** Two rows of a frame, aged 30 and 31 days. *)
Definition two_rows : list frame_row :=
  [FrameRow Sample.exactly_30 None None (F64.of_Z 30);
   FrameRow Sample.over_30 None None (F64.of_Z 31)].

(** A service whose first search finds 120 channels and whose detail lookup
    knows none of them. *)
Definition crowd : client :=
  fun _ r =>
    match r with
    | SearchList q _ _ _ _ _ =>
        if String.eqb q "first vlog" then
          Ok (JDict [("items",
                JList (map (fun k => Sample.found ("UC" ++ Sample.pad 3 (Z.of_nat k))%string)
                         (seq 0 120)))])
        else Ok (JDict [])
    | ChannelsList _ _ => Ok (JDict [])
    end.

End Probe.

(** ** The program *)

Section Program.

Set Default Proof Using "Type".

(** The instant the [n]-th call of [datetime.utcnow()] of a run returns. *)
Variable clock : nat -> Z.
(** [datetime.isoformat()] and [datetime.strftime("%Y-%m-%d")]. *)
Variable isoformat : Z -> string.
Variable strftime_Ymd : Z -> string.
(** [pd.to_datetime(_, errors="coerce")] on a column. *)
Variable to_datetime : list json -> result datetimes.
(** [(later - earlier).dt.total_seconds()] on two datetime columns; the
    seconds of a difference with [NaT] are [NaN]. *)
Variable timedelta_seconds : datetimes -> datetimes -> result (list float).
(** [pd.to_numeric(_, errors="coerce")] on a column. *)
Variable to_numeric : list json -> result (list numeric).
(** What [astype("int64")] makes of a finite value outside the range of
    [int64]. *)
Variable int64_wrap : Q -> Z.
(** [list(s)]: the order in which a set is iterated. *)
Variable list_of_set : pyset -> list json.
(** [googleapiclient.discovery.build("youtube", "v3", developerKey=_)]. *)
Variable build : string -> client.
(** The process environment and the entries of the [.env] file. *)
Variable environ : string -> option string.
Variable dotenv : string -> option string.

(** [datetime.utcnow()]: one more read of the clock. *)
Definition utcnow : M Z :=
  fun w => (Ok (clock (ticks w)),
            World (S (ticks w)) (calls w) (stdout w) (files w)).

Definition get_youtube_client (api_key : string) : client := build api_key.

(** *** search_new_videos *)

(** The loop over the items of a search response.  It returns the list built
    so far together with the exception that ended it, if one did. *)
Fixpoint search_items (items : list json) (channel_ids : list json)
  : list json * option exn :=
  match items with
  | [] => (channel_ids, None)
  | item :: rest =>
      match get item "snippet" (JDict []) with
      | Raise e => (channel_ids, Some e)
      | Ok snippet =>
          match get snippet "channelId" JNull with
          | Raise e => (channel_ids, Some e)
          | Ok channel_id =>
              search_items rest
                (if truthy channel_id then channel_ids ++ [channel_id]
                 else channel_ids)
          end
      end
  end.

(** The [search.list] request of the script for a query. *)
Definition search_request (query published_after : string) : request :=
  SearchList query "video" "date" published_after "snippet" 50.

(** The body of the [try]: the value of [channel_ids] when the block is
    left, and the exception that left it. *)
Definition search_try (youtube : client) (query published_after : string)
  : M (list json * option exn) :=
  fun w =>
    match execute youtube (search_request query published_after) w with
    | (Raise e, w1) => (Ok ([], Some e), w1)
    | (Ok search_response, w1) =>
        match get search_response "items" (JList []) with
        | Raise e => (Ok ([], Some e), w1)
        | Ok o =>
            match iter o with
            | Raise e => (Ok ([], Some e), w1)
            | Ok items => (Ok (search_items items []), w1)
            end
        end
    end.

(** The two [except] clauses. *)
Definition search_except (query : string) (e : exn) : M unit :=
  match e with
  | HttpError _ => print (SearchHttpError query e)
  | _ => print (SearchUnexpectedError query e)
  end.

(** The function returns [channel_ids] whichever way the [try] was left. *)
Definition search_new_videos (youtube : client) (query published_after : string)
  : M (list json) :=
  r <- search_try youtube query published_after ;;
  match snd r with
  | Some e => search_except query e ;;; ret (fst r)
  | None => ret (fst r)
  end.

(** *** get_channel_details *)

(** The dictionary built for one item; the subexpressions are evaluated in
    the order of the source. *)
Definition channel_of_item (item : json) : M channel :=
  snippet <- lift (get item "snippet" (JDict [])) ;;
  stats <- lift (get item "statistics" (JDict [])) ;;
  id <- lift (get item "id" JNull) ;;
  title <- lift (get snippet "title" (JStr "")) ;;
  publishedAt <- lift (get snippet "publishedAt" (JStr "")) ;;
  subscriberCount <- lift (get stats "subscriberCount" (JNum 0)) ;;
  videoCount <- lift (get stats "videoCount" (JNum 0)) ;;
  viewCount <- lift (get stats "viewCount" (JNum 0)) ;;
  now <- utcnow ;;
  ret (Channel id title publishedAt subscriberCount videoCount viewCount
         (JStr (isoformat now ++ "Z")%string)).

(** The loop over the items of a detail response, with the list built so
    far and the exception that ended it, if one did. *)
Fixpoint details_items (items : list json) (data : list channel) {struct items}
  : M (list channel * option exn) :=
  fun w =>
    match items with
    | [] => (Ok (data, None), w)
    | item :: rest =>
        match channel_of_item item w with
        | (Ok c, w') => details_items rest (data ++ [c]) w'
        | (Raise e, w') => (Ok (data, Some e), w')
        end
    end.

(** The body of the [try]; the IDs are joined before the request is made. *)
Definition details_try (youtube : client) (channel_ids : list json)
  : M (list channel * option exn) :=
  fun w =>
    match join "," channel_ids with
    | Raise e => (Ok ([], Some e), w)
    | Ok ids =>
        match execute youtube (ChannelsList ids "snippet,statistics") w with
        | (Raise e, w1) => (Ok ([], Some e), w1)
        | (Ok response, w1) =>
            match get response "items" (JList []) with
            | Raise e => (Ok ([], Some e), w1)
            | Ok o =>
                match iter o with
                | Raise e => (Ok ([], Some e), w1)
                | Ok items => details_items items [] w1
                end
            end
        end
    end.

Definition details_except (e : exn) : M unit :=
  match e with
  | HttpError _ => print (DetailsHttpError e)
  | _ => print (DetailsUnexpectedError e)
  end.

Definition get_channel_details (youtube : client) (channel_ids : list json)
  : M (list channel) :=
  match channel_ids with
  | [] => ret []
  | _ =>
      r <- details_try youtube channel_ids ;;
      match snd r with
      | Some e => details_except e ;;; ret (fst r)
      | None => ret (fst r)
      end
  end.

(** *** collect_new_channels *)

(** One hour, in nanoseconds. *)
Definition hour : Z := 3600 * 1000000000.

(** The discovery loop. *)
Fixpoint discover (youtube : client) (queries : list string)
    (published_after : string) (all_channel_ids : pyset) : M pyset :=
  match queries with
  | [] => ret all_channel_ids
  | query :: rest =>
      channel_ids <- search_new_videos youtube query published_after ;;
      all_channel_ids' <- lift (set_update all_channel_ids channel_ids) ;;
      sleep ;;;
      discover youtube rest published_after all_channel_ids'
  end.

(** The enrichment loop over the start indices [range(0, len(l), 50)]. *)
Fixpoint enrich (youtube : client) (channel_id_list : list json)
    (starts : list nat) (all_channel_data : list channel) : M (list channel) :=
  match starts with
  | [] => ret all_channel_data
  | i :: rest =>
      let batch := slice channel_id_list i (i + 50) in
      details <- get_channel_details youtube batch ;;
      sleep ;;;
      enrich youtube channel_id_list rest (all_channel_data ++ details)
  end.

Definition collect_new_channels (youtube : client) (queries : list string)
    (window_hours : Z) : M (list channel) :=
  now <- utcnow ;;
  let published_after := (isoformat (now - window_hours * hour) ++ "Z")%string in
  all_channel_ids <- discover youtube queries published_after [] ;;
  let channel_id_list := list_of_set all_channel_ids in
  enrich youtube channel_id_list (range0 (length channel_id_list) 50) [].

(** *** filter_and_save_channels *)

(** [24 * 3600], as the float64 the division converts it to. *)
Definition one_day : float := F64.of_Z (24 * 3600).

(** An element of [seconds / (24 * 3600)]. *)
Definition age_days (seconds : float) : float := F64.div seconds one_day.

(** The frame after the three computed columns are added.  A column is
    aligned with the frame by position; a position it lacks reads as
    missing. *)
Definition rows_of (all_channel_data : list channel)
    (published retrieved : datetimes) (seconds : list float) : list frame_row :=
  imap (fun i c =>
          FrameRow c (default None (instants published !! i))
            (default None (instants retrieved !! i))
            (age_days (default F64.nan (seconds !! i))))
    all_channel_data.

(** [df] with [published_at_dt], [data_retrieved_at_dt] and
    [channel_age_days]. *)
Definition frame (all_channel_data : list channel) : outcome (list frame_row) :=
  and_then (outcome_of (to_datetime (map published_at all_channel_data)))
    (fun published =>
  and_then (outcome_of (to_datetime (map data_retrieved_at all_channel_data)))
    (fun retrieved =>
  and_then (outcome_of (timedelta_seconds retrieved published))
    (fun seconds =>
  Ok (rows_of all_channel_data published retrieved seconds)))).

(** [channel_age_days <= max_age_days]; a comparison with [NaN] is false. *)
Definition young (max_age_days : float) (r : frame_row) : bool :=
  F64.leb (channel_age_days r) max_age_days.

(** [df[df["channel_age_days"] <= max_age_days]]. *)
Definition df_new (df : list frame_row) (max_age_days : float) : list frame_row :=
  List.filter (young max_age_days) df.

(** [.astype("int64")] on one element: a finite value is cut off towards
    zero, a value that is not finite is refused. *)
Definition astype_int64 (x : numeric) : outcome Z :=
  match x with
  | Finite q =>
      let n := truncate q in
      if (int64_min <=? n) && (n <=? int64_max) then Ok n else Ok (int64_wrap q)
  | _ => Raise IntCastingNaNError
  end.

(** The cast of a column: the first element that is refused raises. *)
Fixpoint cast_column (col : list numeric) : outcome (list Z) :=
  match col with
  | [] => Ok []
  | x :: rest =>
      match astype_int64 x with
      | Raise e => Raise e
      | Ok n =>
          match cast_column rest with
          | Raise e => Raise e
          | Ok ns => Ok (n :: ns)
          end
      end
  end.

(** [pd.to_numeric(col, errors="coerce").fillna(0).astype("int64")]. *)
Definition to_int64 (col : list json) : outcome (list Z) :=
  and_then (outcome_of (to_numeric col)) (fun xs => cast_column (map fillna0 xs)).

(** A row of the written file, in the order of [frame_columns]. *)
Definition row_cells (r : frame_row) (subscribers videos views : Z) : list cell :=
  [CObj (channel_id (record r)); CObj (channel_title (record r));
   CObj (published_at (record r)); CInt subscribers; CInt videos; CInt views;
   CObj (data_retrieved_at (record r)); CTime (published_at_dt r);
   CTime (data_retrieved_at_dt r); CFloat (channel_age_days r)].

(** The rows of the frame once the three count columns are replaced. *)
Definition csv_rows (df : list frame_row) (subscribers videos views : list Z)
  : list (list cell) :=
  imap (fun i r =>
          row_cells r (default 0 (subscribers !! i)) (default 0 (videos !! i))
            (default 0 (views !! i)))
    df.

Definition filter_and_save_channels (all_channel_data : list channel)
    (max_age_days : float) : M string :=
  match all_channel_data with
  | [] => print NoChannelData ;;; ret ""
  | _ =>
      df <- lift (frame all_channel_data) ;;
      let df_new := df_new df max_age_days in
      subscribers <- lift (to_int64 (map (fun r => subscriber_count (record r)) df_new)) ;;
      videos <- lift (to_int64 (map (fun r => video_count (record r)) df_new)) ;;
      views <- lift (to_int64 (map (fun r => view_count (record r)) df_new)) ;;
      match df_new with
      | [] => print (NoChannelsYounger max_age_days) ;;; ret ""
      | _ =>
          now <- utcnow ;;
          let date_str := strftime_Ymd now in
          let filename := ("new_youtube_channels_" ++ date_str ++ ".csv")%string in
          to_csv filename (Table frame_columns (csv_rows df_new subscribers videos views)) ;;;
          print (Saved (length df_new) filename) ;;;
          ret filename
      end
  end.

(** *** main *)

(** [os.getenv] after [load_dotenv()]: a variable of the process wins over
    the entry of the file. *)
Definition getenv (name : string) : option string :=
  match environ name with
  | Some v => Some v
  | None => dotenv name
  end.

(** [not api_key]. *)
Definition unset (api_key : option string) : bool :=
  match api_key with
  | None => true
  | Some s => String.eqb s ""
  end.

Definition search_queries : list string :=
  ["first vlog"; "new channel"; "hello everyone"; "channel trailer";
   "gameplay episode 1"; "vlog day 1"; "first video"].

Definition missing_key : exn :=
  RuntimeError
    ("YOUTUBE_API_KEY environment variable not set. " ++
     "Define it in a .env file or set it in your execution environment.")%string.

(** [30.0]. *)
Definition thirty : float := F64.of_Z 30.

Definition main : M unit :=
  let api_key := getenv "YOUTUBE_API_KEY" in
  if unset api_key then raise missing_key
  else
    let youtube := get_youtube_client (default "" api_key) in
    all_data <- collect_new_channels youtube search_queries 24 ;;
    filter_and_save_channels all_data thirty ;;;
    ret tt.

(** ** Vocabulary of the properties *)

(** What [main] does once it holds a client: collect, then filter and save. *)
Definition run_pipeline (youtube : client) (queries : list string)
    (window_hours : Z) (max_age_days : float) : M unit :=
  all_data <- collect_new_channels youtube queries window_hours ;;
  filter_and_save_channels all_data max_age_days ;;;
  ret tt.

(** The three count columns of the filtered frame, converted in the order
    of the loop. *)
Definition int_columns (df : list frame_row) : outcome (list Z * list Z * list Z) :=
  and_then (to_int64 (map (fun r => subscriber_count (record r)) df)) (fun subscribers =>
  and_then (to_int64 (map (fun r => video_count (record r)) df)) (fun videos =>
  and_then (to_int64 (map (fun r => view_count (record r)) df)) (fun views =>
  Ok (subscribers, videos, views)))).

(** The name of the file written at the instant [now]. *)
Definition filename_on (now : Z) : string :=
  ("new_youtube_channels_" ++ strftime_Ymd now ++ ".csv")%string.

(** The world after a line is printed. *)
Definition printed (msg : message) (w : world) : world :=
  World (ticks w) (calls w) (stdout w ++ [msg]) (files w).

(** The world after a write. *)
Definition saved (df : list frame_row) (columns : list Z * list Z * list Z)
    (w : world) : world :=
  let filename := filename_on (clock (ticks w)) in
  let '(subscribers, videos, views) := columns in
  World (S (ticks w)) (calls w) (stdout w ++ [Saved (length df) filename])
    (<[filename := Table frame_columns (csv_rows df subscribers videos views)]>
       (files w)).

(** What the function does with a non-empty list, stage by stage. *)
Definition filter_outcome (all_channel_data : list channel) (max_age_days : float)
    (w : world) : outcome string * world :=
  match frame all_channel_data with
  | Raise e => (Raise e, w)
  | Ok df =>
      match int_columns (df_new df max_age_days) with
      | Raise e => (Raise e, w)
      | Ok columns =>
          match df_new df max_age_days with
          | [] => (Ok "", printed (NoChannelsYounger max_age_days) w)
          | _ => (Ok (filename_on (clock (ticks w))),
                  saved (df_new df max_age_days) columns w)
          end
      end
  end.


(** The first cell and the age cell of a written row. *)
Definition key_cells (row : list cell) : option cell * option cell :=
  (row !! 0%nat, row !! 9%nat).

(** The three count cells of a written row. *)
Definition count_cells (row : list cell) : list (option cell) :=
  [row !! 3%nat; row !! 4%nat; row !! 5%nat].

(** A value that is a [str]. *)
Definition is_str (v : json) : Prop := exists s, v = JStr s.

(** The batches the enrichment loop cuts out of the list of IDs. *)
Definition batches (channel_id_list : list json) : list (list json) :=
  map (fun i => slice channel_id_list i (i + 50))
    (range0 (length channel_id_list) 50).

(** The [channels.list] request for a batch. *)
Definition channels_request (batch : list json) (r : request) : Prop :=
  exists ids, join "," batch = Ok ids /\ r = ChannelsList ids "snippet,statistics".

(** One call of [get_channel_details] per given batch, in order, the
    records appended as they arrive. *)
Fixpoint details_of_batches (youtube : client) (bs : list (list json))
    (all_channel_data : list channel) : M (list channel) :=
  match bs with
  | [] => ret all_channel_data
  | batch :: rest =>
      details <- get_channel_details youtube batch ;;
      sleep ;;;
      details_of_batches youtube rest (all_channel_data ++ details)
  end.

(** The lists [search_new_videos] returns to the discovery loop, query by
    query. *)
Fixpoint search_results (youtube : client) (queries : list string)
    (published_after : string) (w : world) : list (list json) :=
  match queries with
  | [] => []
  | query :: rest =>
      match search_new_videos youtube query published_after w with
      | (Ok channel_ids, w1) =>
          channel_ids :: search_results youtube rest published_after w1
      | (Raise _, _) => []
      end
  end.


(** The line printed for a failed search. *)
Definition search_diagnostic (query : string) (e : exn) : message :=
  match e with
  | HttpError _ => SearchHttpError query e
  | _ => SearchUnexpectedError query e
  end.

(** ** Vocabulary of the further properties *)

(** What one item of a search response contributes: its
    [snippet.channelId] when that is truthy. *)
Definition hit (item : json) : outcome (list json) :=
  match get item "snippet" (JDict []) with
  | Raise e => Raise e
  | Ok snippet =>
      match get snippet "channelId" JNull with
      | Raise e => Raise e
      | Ok channel_id => Ok (if truthy channel_id then [channel_id] else [])
      end
  end.

(** An item the search loop can read: an object whose [snippet] is an
    object or absent. *)
Definition readable_hit (item : json) : Prop := exists l, hit item = Ok l.

(** The contributions of the items, in order. *)
Definition hits (items : list json) : list json :=
  flat_map (fun item => match hit item with Ok l => l | Raise _ => [] end) items.

(** The dictionary [get_channel_details] builds for an item, given the
    retrieval stamp: the reads of [channel_of_item] without the clock. *)
Definition record_of (item : json) (stamp : string) : outcome channel :=
  and_then (get item "snippet" (JDict [])) (fun snippet =>
  and_then (get item "statistics" (JDict [])) (fun stats =>
  and_then (get item "id" JNull) (fun id =>
  and_then (get snippet "title" (JStr "")) (fun title =>
  and_then (get snippet "publishedAt" (JStr "")) (fun publishedAt =>
  and_then (get stats "subscriberCount" (JNum 0)) (fun subscriberCount =>
  and_then (get stats "videoCount" (JNum 0)) (fun videoCount =>
  and_then (get stats "viewCount" (JNum 0)) (fun viewCount =>
  Ok (Channel id title publishedAt subscriberCount videoCount viewCount
        (JStr stamp)))))))))).

(** The stamp of the clock read number [tick]. *)
Definition stamp_at (tick : nat) : string := (isoformat (clock tick) ++ "Z")%string.

(** An item the detail loop can read: an object whose [snippet] and
    [statistics] are objects or absent. *)
Definition readable_item (item : json) : Prop :=
  exists di ds dst,
    item = JDict di /\
    get item "snippet" (JDict []) = Ok (JDict ds) /\
    get item "statistics" (JDict []) = Ok (JDict dst).

(** The records the detail loop builds from clock read [tick] on, and the
    exception that ends it. *)
Fixpoint records_from (items : list json) (tick : nat) : list channel * option exn :=
  match items with
  | [] => ([], None)
  | item :: rest =>
      match record_of item (stamp_at tick) with
      | Ok c => let '(cs, oe) := records_from rest (S tick) in (c :: cs, oe)
      | Raise e => ([], Some e)
      end
  end.

(** The line printed for a failed detail lookup. *)
Definition details_diagnostic (e : exn) : message :=
  match e with
  | HttpError _ => DetailsHttpError e
  | _ => DetailsUnexpectedError e
  end.

(** The [channels.list] request for joined IDs. *)
Definition details_request (ids : string) : request :=
  ChannelsList ids "snippet,statistics".

(** ** Which exceptions can leave each function *)

Ltac run := unfold bind, ret, lift, raise, print, sleep, to_csv; simpl.

Lemma bind_raise {A B} (m : M A) (k : A -> M B) w e w' :
  bind m k w = (Raise e, w') ->
  m w = (Raise e, w') \/ exists a w1, m w = (Ok a, w1) /\ k a w1 = (Raise e, w').
Proof.
  unfold bind. destruct (m w) as [[a | e1] w1]; intros H; [right; exists a, w1; auto |].
  left. injection H as -> ->. reflexivity.
Qed.

Lemma bind_ok {A B} (m : M A) (k : A -> M B) w b w' :
  bind m k w = (Ok b, w') ->
  exists a w1, m w = (Ok a, w1) /\ k a w1 = (Ok b, w').
Proof.
  unfold bind. destruct (m w) as [[a | e1] w1]; intros H; [exists a, w1; auto | discriminate].
Qed.

Lemma search_try_ok youtube query published_after w :
  exists r w', search_try youtube query published_after w = (Ok r, w').
Proof.
  unfold search_try.
  destruct (execute _ _ w) as [[resp | e] w1]; [| eauto].
  destruct (get resp _ _); [| eauto].
  destruct (iter _); eauto.
Qed.

Lemma search_new_videos_ok youtube query published_after w :
  exists ids w', search_new_videos youtube query published_after w = (Ok ids, w').
Proof.
  unfold search_new_videos, bind.
  destruct (search_try_ok youtube query published_after w) as ([ids [e |]] & w1 & ->);
    simpl; [| unfold ret; eauto].
  destruct e; simpl; run; eauto.
Qed.

Lemma details_items_ok items : forall data w,
  exists r w', details_items items data w = (Ok r, w').
Proof.
  induction items as [| item rest IH]; intros data w; simpl; [eauto |].
  destruct (channel_of_item item w) as [[c | e] w1]; eauto.
Qed.

Lemma details_try_ok youtube channel_ids w :
  exists r w', details_try youtube channel_ids w = (Ok r, w').
Proof.
  unfold details_try.
  destruct (join _ _); [| eauto].
  destruct (execute _ _ w) as [[resp | e] w1]; [| eauto].
  destruct (get resp _ _); [| eauto].
  destruct (iter _); [apply details_items_ok | eauto].
Qed.

Lemma get_channel_details_ok youtube channel_ids w :
  exists data w', get_channel_details youtube channel_ids w = (Ok data, w').
Proof.
  unfold get_channel_details.
  destruct channel_ids as [| x l]; [unfold ret; eauto |].
  unfold bind.
  destruct (details_try_ok youtube (x :: l) w) as ([data [e |]] & w1 & ->);
    simpl; [| unfold ret; eauto].
  destruct e; simpl; run; eauto.
Qed.

Lemma set_update_raises s xs e : set_update s xs = Raise e -> e = TypeError.
Proof.
  revert s; induction xs as [| x rest IH]; intros s; simpl; [discriminate |].
  unfold set_add. destruct (hash_key x); [apply IH | congruence].
Qed.

Lemma discover_raises youtube queries published_after : forall s w e w',
  discover youtube queries published_after s w = (Raise e, w') -> e = TypeError.
Proof.
  induction queries as [| query rest IH]; intros s w e w'; simpl.
  - unfold ret. congruence.
  - unfold bind at 1.
    destruct (search_new_videos_ok youtube query published_after w) as (ids & w1 & ->).
    unfold bind at 1, lift.
    destruct (set_update s ids) as [s' | e'] eqn:Hup.
    + run. apply IH.
    + intros [= <- _]. eapply set_update_raises; eauto.
Qed.

Lemma enrich_ok youtube l starts : forall data w,
  exists data' w', enrich youtube l starts data w = (Ok data', w').
Proof.
  induction starts as [| i rest IH]; intros data w; simpl; [unfold ret; eauto |].
  unfold bind at 1.
  destruct (get_channel_details_ok youtube (slice l i (i + 50)) w) as (d & w1 & ->).
  run. apply IH.
Qed.

Lemma collect_new_channels_raises youtube queries window_hours w e w' :
  collect_new_channels youtube queries window_hours w = (Raise e, w') ->
  e = TypeError.
Proof.
  unfold collect_new_channels, bind at 1, utcnow.
  unfold bind at 1.
  destruct (discover _ _ _ _ _) as [[s | e'] w1] eqn:Hd.
  - destruct (enrich_ok youtube (list_of_set s)
                (range0 (length (list_of_set s)) 50) [] w1) as (d & w2 & ->).
    congruence.
  - intros [= <- _]. eapply discover_raises; eauto.
Qed.

(** ** float64 comparison and division *)

Lemma SFcompare_rank (x y : float) :
  SFcompare x y = match F64.rank x, F64.rank y with
                  | Some a, Some b => Some (F64.lex a b)
                  | _, _ => None
                  end.
Proof.
  destruct x as [sx | sx | | sx mx ex], y as [sy | sy | | sy my ey];
    try destruct sx; try destruct sy; simpl; try reflexivity.
  rewrite Z.compare_opp, (Z.compare_antisym ex ey).
  destruct (ex ?= ey); reflexivity.
Qed.


Lemma lex_le_trans a b c :
  F64.lex a b <> Gt -> F64.lex b c <> Gt -> F64.lex a c <> Gt.
Proof.
  destruct a as [[a1 a2] a3], b as [[b1 b2] b3], c as [[c1 c2] c3]. unfold F64.lex.
  destruct (Z.compare_spec a1 b1), (Z.compare_spec b1 c1), (Z.compare_spec a1 c1);
    try lia; try congruence;
  destruct (Z.compare_spec a2 b2), (Z.compare_spec b2 c2), (Z.compare_spec a2 c2);
    try lia; try congruence;
  destruct (Z.compare_spec a3 b3), (Z.compare_spec b3 c3), (Z.compare_spec a3 c3);
    try lia; try congruence.
Qed.



(** [NaN] is below nothing, and nothing is below it. *)
Lemma leb_nan x : F64.leb F64.nan x = false.
Proof. reflexivity. Qed.


Lemma leb_trans x y z :
  F64.leb x y = true -> F64.leb y z = true -> F64.leb x z = true.
Proof.
  unfold F64.leb, SFleb. rewrite !SFcompare_rank.
  destruct (F64.rank x) as [a |], (F64.rank y) as [b |], (F64.rank z) as [c |];
    try discriminate.
  intros H1 H2.
  assert (Hab : F64.lex a b <> Gt)
    by (destruct (F64.lex a b); [discriminate | discriminate | discriminate H1]).
  assert (Hbc : F64.lex b c <> Gt)
    by (destruct (F64.lex b c); [discriminate | discriminate | discriminate H2]).
  pose proof (lex_le_trans a b c Hab Hbc) as Hac.
  destruct (F64.lex a c); congruence.
Qed.

Lemma shr_1_nonneg mrs : 0 <= shr_m mrs -> 0 <= shr_m (shr_1 mrs).
Proof.
  destruct mrs as [m r s]. simpl. destruct m as [| [p | p |] | [p | p |]]; simpl; lia.
Qed.

Lemma iter_shr_1_nonneg p : forall mrs,
  0 <= shr_m mrs -> 0 <= shr_m (SpecFloat.iter_pos shr_1 p mrs).
Proof.
  induction p as [p IH | p IH |]; intros mrs H; simpl.
  - apply IH, IH, shr_1_nonneg, H.
  - apply IH, IH, H.
  - apply shr_1_nonneg, H.
Qed.

Lemma shr_fexp_nonneg m e l :
  0 <= m -> 0 <= shr_m (fst (shr_fexp F64.prec F64.emax m e l)).
Proof.
  intros H. unfold shr_fexp, shr.
  assert (H0 : 0 <= shr_m (shr_record_of_loc m l)) by (destruct l as [| []]; exact H).
  destruct (_ - e); simpl; auto. apply iter_shr_1_nonneg, H0.
Qed.

Lemma round_nearest_even_nonneg m l : 0 <= m -> 0 <= round_nearest_even m l.
Proof.
  intros H. destruct l as [| []]; simpl; try lia. destruct (Z.even m); lia.
Qed.

(** Rounding keeps the sign. *)
Lemma binary_round_aux_signed s m e l :
  0 <= m -> F64.signed s (binary_round_aux F64.prec F64.emax s m e l).
Proof.
  intros H. unfold binary_round_aux.
  pose proof (shr_fexp_nonneg m e l H) as H1.
  destruct (shr_fexp F64.prec F64.emax m e l) as [mrs' e']. simpl in H1.
  pose proof (shr_fexp_nonneg _ e' loc_Exact
                (round_nearest_even_nonneg _ (loc_of_shr_record mrs') H1)) as H2.
  destruct (shr_fexp F64.prec F64.emax _ e' loc_Exact) as [mrs'' e'']. simpl in H2.
  destruct (shr_m mrs'') as [| p | p]; [left; reflexivity | | lia].
  destruct (e'' <=? _); [right; right; eauto | right; left; reflexivity].
Qed.

Lemma div_signed sx mx ex sy my ey :
  F64.signed (xorb sx sy) (F64.div (S754_finite sx mx ex) (S754_finite sy my ey)).
Proof.
  unfold F64.div, SFdiv, SFdiv_core_binary.
  set (m' := match _ with Z0 => Zpos mx | Zpos _ => _ | Zneg _ => 0 end).
  assert (Hm : 0 <= m').
  { subst m'. destruct (_ - _ - _); try lia. apply Z.shiftl_nonneg. lia. }
  pose proof (Z.div_pos m' (Zpos my) Hm eq_refl) as Hq.
  unfold Z.div in Hq. destruct (Z.div_eucl m' (Zpos my)) as [q r].
  apply binary_round_aux_signed, Hq.
Qed.

(** A number that is at most zero stays so when divided by a positive one. *)
Lemma div_nonpos x m e :
  F64.leb x F64.zero = true ->
  F64.leb (F64.div x (S754_finite false m e)) F64.zero = true.
Proof.
  destruct x as [s | s | | s mx ex].
  - intros _. reflexivity.
  - destruct s; [reflexivity | discriminate].
  - discriminate.
  - destruct s; [| discriminate]. intros _.
    destruct (div_signed true mx ex false m e) as [H | [H | (m1 & e1 & H)]];
      rewrite H; reflexivity.
Qed.

Lemma age_days_nonpos seconds :
  F64.leb seconds F64.zero = true -> F64.leb (age_days seconds) F64.zero = true.
Proof. apply div_nonpos. Qed.

(** ** The stages of [filter_and_save_channels] *)

Lemma outcome_of_raises {A} (r : result A) e :
  outcome_of r = Raise e -> exists pe, e = exn_of pe.
Proof. destruct r as [a | pe]; simpl; [discriminate | intros [= <-]; eauto]. Qed.

Lemma frame_raises data e : frame data = Raise e -> exists pe, e = exn_of pe.
Proof.
  unfold frame.
  destruct (outcome_of (to_datetime (map published_at data))) as [p | e1] eqn:H1;
    simpl; [| intros [= <-]; eapply outcome_of_raises, H1].
  destruct (outcome_of (to_datetime (map data_retrieved_at data))) as [t | e2] eqn:H2;
    simpl; [| intros [= <-]; eapply outcome_of_raises, H2].
  destruct (outcome_of (timedelta_seconds t p)) as [s | e3] eqn:H3;
    simpl; [discriminate | intros [= <-]; eapply outcome_of_raises, H3].
Qed.

Lemma frame_returns data published retrieved seconds :
  to_datetime (map published_at data) = Returns published ->
  to_datetime (map data_retrieved_at data) = Returns retrieved ->
  timedelta_seconds retrieved published = Returns seconds ->
  frame data = Ok (rows_of data published retrieved seconds).
Proof.
  intros H1 H2 H3. unfold frame. rewrite H1. simpl. rewrite H2. simpl.
  rewrite H3. reflexivity.
Qed.

Lemma frame_rows data df :
  frame data = Ok df ->
  exists published retrieved seconds,
    to_datetime (map published_at data) = Returns published /\
    to_datetime (map data_retrieved_at data) = Returns retrieved /\
    timedelta_seconds retrieved published = Returns seconds /\
    df = rows_of data published retrieved seconds.
Proof.
  unfold frame.
  destruct (to_datetime (map published_at data)) as [p | e1] eqn:H1;
    simpl; [| discriminate].
  destruct (to_datetime (map data_retrieved_at data)) as [t | e2] eqn:H2;
    simpl; [| discriminate].
  destruct (timedelta_seconds t p) as [s | e3] eqn:H3; simpl; [| discriminate].
  intros [= <-]. exists p, t, s. auto.
Qed.

Lemma rows_of_records data published retrieved seconds :
  map record (rows_of data published retrieved seconds) = data.
Proof.
  apply list_eq. intros i. unfold rows_of.
  change (map record ?l) with (record <$> l).
  rewrite list_lookup_fmap, list_lookup_imap.
  destruct (data !! i); reflexivity.
Qed.

Lemma rows_of_length data published retrieved seconds :
  length (rows_of data published retrieved seconds) = length data.
Proof. apply length_imap. Qed.

Lemma rows_of_lookup data published retrieved seconds i c :
  data !! i = Some c ->
  rows_of data published retrieved seconds !! i
  = Some (FrameRow c (default None (instants published !! i))
            (default None (instants retrieved !! i))
            (age_days (default F64.nan (seconds !! i)))).
Proof. intros H. unfold rows_of. rewrite list_lookup_imap, H. reflexivity. Qed.

Lemma df_new_sublist df max_age_days : sublist (df_new df max_age_days) df.
Proof.
  unfold df_new. induction df as [| r df IH]; simpl; [constructor |].
  destruct (young max_age_days r); constructor; exact IH.
Qed.

Lemma df_new_In df max_age_days r :
  In r (df_new df max_age_days) <-> In r df /\ young max_age_days r = true.
Proof. apply filter_In. Qed.

(** The survivors are records of the input, in its order. *)
Lemma survivors_sublist data df max_age_days :
  frame data = Ok df -> sublist (map record (df_new df max_age_days)) data.
Proof.
  intros H. apply frame_rows in H as (p & t & s & _ & _ & _ & ->).
  rewrite <- (rows_of_records data p t s) at 2.
  apply (fmap_sublist record), df_new_sublist.
Qed.

Lemma cast_column_raises col e : cast_column col = Raise e -> e = IntCastingNaNError.
Proof.
  induction col as [| x rest IH]; simpl; [discriminate |].
  destruct x as [| | q]; simpl; try congruence.
  destruct (_ && _); (destruct (cast_column rest); [discriminate | intros [= <-]; auto]).
Qed.




Lemma cast_filled_infinite xs :
  In Infinite xs -> cast_column (map fillna0 xs) = Raise IntCastingNaNError.
Proof.
  induction xs as [| x rest IH]; simpl; [contradiction |].
  intros [-> | Hin]; [reflexivity |].
  destruct (astype_int64 (fillna0 x)) as [n | e] eqn:Hx.
  - rewrite (IH Hin). reflexivity.
  - destruct x as [| | q]; simpl in Hx; try congruence.
    destruct (_ && _); discriminate.
Qed.

Lemma to_int64_raises col e :
  to_int64 col = Raise e -> e = IntCastingNaNError \/ exists pe, e = exn_of pe.
Proof.
  unfold to_int64. destruct (to_numeric col) as [xs | pe]; simpl.
  - intros H. left. eapply cast_column_raises, H.
  - intros [= <-]. eauto.
Qed.

Lemma to_int64_returns col xs :
  to_numeric col = Returns xs -> to_int64 col = cast_column (map fillna0 xs).
Proof. intros H. unfold to_int64. rewrite H. reflexivity. Qed.

Lemma int_columns_raises df e :
  int_columns df = Raise e -> e = IntCastingNaNError \/ exists pe, e = exn_of pe.
Proof.
  unfold int_columns.
  destruct (to_int64 (map (fun r => subscriber_count (record r)) df)) eqn:H1;
    simpl; [| intros [= <-]; eapply to_int64_raises, H1].
  destruct (to_int64 (map (fun r => video_count (record r)) df)) eqn:H2;
    simpl; [| intros [= <-]; eapply to_int64_raises, H2].
  destruct (to_int64 (map (fun r => view_count (record r)) df)) eqn:H3;
    simpl; [discriminate | intros [= <-]; eapply to_int64_raises, H3].
Qed.

Lemma int_columns_returns df subscribers videos views :
  int_columns df = Ok (subscribers, videos, views) <->
  to_int64 (map (fun r => subscriber_count (record r)) df) = Ok subscribers /\
  to_int64 (map (fun r => video_count (record r)) df) = Ok videos /\
  to_int64 (map (fun r => view_count (record r)) df) = Ok views.
Proof.
  unfold int_columns.
  destruct (to_int64 (map (fun r => subscriber_count (record r)) df)); simpl;
    [| split; [discriminate | intros (H & _); discriminate H]].
  destruct (to_int64 (map (fun r => video_count (record r)) df)); simpl;
    [| split; [discriminate | intros (_ & H & _); discriminate H]].
  destruct (to_int64 (map (fun r => view_count (record r)) df)); simpl;
    [| split; [discriminate | intros (_ & _ & H); discriminate H]].
  split; [intros [= <- <- <-]; auto | intros ([= ->] & [= ->] & [= ->]); reflexivity].
Qed.

(** The function stage by stage. *)
Lemma filter_and_save_channels_empty max_age_days w :
  filter_and_save_channels [] max_age_days w = (Ok "", printed NoChannelData w).
Proof. reflexivity. Qed.

Lemma filter_and_save_channels_stages data max_age_days w :
  data <> [] ->
  filter_and_save_channels data max_age_days w = filter_outcome data max_age_days w.
Proof.
  intros Hne. unfold filter_and_save_channels, filter_outcome, int_columns.
  destruct data as [| c data]; [contradiction |].
  unfold bind at 1, lift. destruct (frame (c :: data)) as [df | e]; [| reflexivity].
  set (rows := df_new df max_age_days).
  unfold bind at 1.
  destruct (to_int64 (map (fun r => subscriber_count (record r)) rows)) as [s | e];
    simpl; [| reflexivity].
  unfold bind at 1.
  destruct (to_int64 (map (fun r => video_count (record r)) rows)) as [v | e];
    simpl; [| reflexivity].
  unfold bind at 1.
  destruct (to_int64 (map (fun r => view_count (record r)) rows)) as [n | e];
    simpl; [| reflexivity].
  destruct rows; reflexivity.
Qed.

Lemma filename_on_not_empty now : filename_on now <> "".
Proof. unfold filename_on. simpl. discriminate. Qed.

(** A run that raises has raised in pandas, and has changed nothing. *)
Lemma filter_and_save_channels_raises data max_age_days w e w' :
  filter_and_save_channels data max_age_days w = (Raise e, w') ->
  w' = w /\ data <> [] /\
  (frame data = Raise e \/
   exists df, frame data = Ok df /\ int_columns (df_new df max_age_days) = Raise e).
Proof.
  destruct data as [| c data]; [discriminate |].
  rewrite filter_and_save_channels_stages by discriminate. unfold filter_outcome.
  destruct (frame (c :: data)) as [df | e1];
    [| intros [= <- <-]; split; [reflexivity | split; [discriminate | auto]]].
  destruct (int_columns (df_new df max_age_days)) as [columns | e2] eqn:Hc;
    [| intros [= <- <-]; split; [reflexivity | split; [discriminate | eauto]]].
  destruct (df_new df max_age_days); discriminate.
Qed.

Lemma filter_and_save_channels_raises_pandas data max_age_days w e w' :
  filter_and_save_channels data max_age_days w = (Raise e, w') ->
  e = IntCastingNaNError \/ exists pe, e = exn_of pe.
Proof.
  intros H. apply filter_and_save_channels_raises in H as (_ & _ & [H | (df & _ & H)]).
  - right. eapply frame_raises, H.
  - eapply int_columns_raises, H.
Qed.

(** A run that returns has either found nothing or written the survivors. *)
Lemma filter_and_save_channels_returns data max_age_days w f w' :
  filter_and_save_channels data max_age_days w = (Ok f, w') ->
  (data = [] /\ f = "" /\ w' = printed NoChannelData w) \/
  (data <> [] /\
   exists df columns,
     frame data = Ok df /\ int_columns (df_new df max_age_days) = Ok columns /\
     ((df_new df max_age_days = [] /\ f = "" /\
       w' = printed (NoChannelsYounger max_age_days) w) \/
      (df_new df max_age_days <> [] /\ f = filename_on (clock (ticks w)) /\
       w' = saved (df_new df max_age_days) columns w))).
Proof.
  destruct data as [| c data].
  - rewrite filter_and_save_channels_empty. intros [= <- <-]. left. auto.
  - rewrite filter_and_save_channels_stages by discriminate. unfold filter_outcome.
    destruct (frame (c :: data)) as [df | e1]; [| discriminate].
    destruct (int_columns (df_new df max_age_days)) as [columns | e2] eqn:Hc;
      [| discriminate].
    intros H. right. split; [discriminate |]. exists df, columns.
    split; [reflexivity |]. split; [exact Hc |].
    destruct (df_new df max_age_days) as [| r rows] eqn:Hdf.
    + injection H as <- <-. left. auto.
    + injection H as <- <-. right. split; [discriminate | auto].
Qed.


(** With a frame, converted counts and no survivor, nothing is written. *)
Lemma filter_and_save_channels_none data max_age_days w df columns :
  data <> [] ->
  frame data = Ok df ->
  int_columns (df_new df max_age_days) = Ok columns ->
  df_new df max_age_days = [] ->
  filter_and_save_channels data max_age_days w
  = (Ok "", printed (NoChannelsYounger max_age_days) w).
Proof.
  intros Hdata Hf Hc Hnone.
  rewrite filter_and_save_channels_stages by exact Hdata. unfold filter_outcome.
  rewrite Hf, Hc, Hnone. reflexivity.
Qed.

(** The written rows: one per survivor, ten cells each. *)
Lemma csv_rows_length df subscribers videos views :
  length (csv_rows df subscribers videos views) = length df.
Proof. apply length_imap. Qed.

Lemma csv_rows_lookup df subscribers videos views i r :
  df !! i = Some r ->
  csv_rows df subscribers videos views !! i
  = Some (row_cells r (default 0 (subscribers !! i)) (default 0 (videos !! i))
            (default 0 (views !! i))).
Proof. intros H. unfold csv_rows. rewrite list_lookup_imap, H. reflexivity. Qed.

Lemma csv_rows_In df subscribers videos views row :
  In row (csv_rows df subscribers videos views) ->
  exists r s v n, In r df /\ row = row_cells r s v n.
Proof.
  intros H. apply list_elem_of_In, list_elem_of_lookup in H as [i H].
  unfold csv_rows in H. rewrite list_lookup_imap in H.
  destruct (df !! i) as [r |] eqn:Hr; [| discriminate].
  injection H as <-. exists r. eexists _, _, _. split; [| reflexivity].
  apply list_elem_of_In, list_elem_of_lookup. eauto.
Qed.

Lemma csv_rows_key_cells df subscribers videos views :
  map key_cells (csv_rows df subscribers videos views)
  = map (fun r => (Some (CObj (channel_id (record r))),
                   Some (CFloat (channel_age_days r)))) df.
Proof.
  apply list_eq. intros i. unfold csv_rows.
  change (map ?f ?l) with (f <$> l).
  rewrite !list_lookup_fmap, list_lookup_imap.
  destruct (df !! i); reflexivity.
Qed.

(** What a written file looks like in the world after the write. *)
Lemma saved_file df columns w :
  exists t,
    files (saved df columns w) = <[filename_on (clock (ticks w)) := t]> (files w) /\
    header t = frame_columns /\
    length (body t) = length df /\
    map key_cells (body t)
    = map (fun r => (Some (CObj (channel_id (record r))),
                     Some (CFloat (channel_age_days r)))) df /\
    Forall (fun row => exists r s v n, In r df /\ row = row_cells r s v n) (body t) /\
    stdout (saved df columns w)
    = stdout w ++ [Saved (length df) (filename_on (clock (ticks w)))] /\
    calls (saved df columns w) = calls w /\
    ticks (saved df columns w) = S (ticks w).
Proof.
  destruct columns as [[s v] n]. unfold saved. eexists. simpl.
  split; [reflexivity |]. split; [reflexivity |].
  split; [apply csv_rows_length |]. split; [apply csv_rows_key_cells |].
  split; [| auto]. apply List.Forall_forall. intros row. apply csv_rows_In.
Qed.

(** With a credential [main] is the pipeline on the client built from it. *)
Lemma main_with_key api_key w :
  getenv "YOUTUBE_API_KEY" = Some api_key -> api_key <> "" ->
  main w = run_pipeline (get_youtube_client api_key) search_queries 24 thirty w.
Proof.
  intros H Hne. unfold main. rewrite H. simpl.
  destruct (String.eqb_spec api_key ""); [contradiction | reflexivity].
Qed.

Lemma run_pipeline_raises youtube queries window_hours max_age_days w e w' :
  run_pipeline youtube queries window_hours max_age_days w = (Raise e, w') ->
  e = TypeError \/ e = IntCastingNaNError \/ exists pe, e = exn_of pe.
Proof.
  intros H. apply bind_raise in H as [H | (data & w1 & _ & H)].
  - left. eapply collect_new_channels_raises, H.
  - apply bind_raise in H as [H | (f & w2 & _ & H)]; [| discriminate].
    right. eapply filter_and_save_channels_raises_pandas, H.
Qed.

Lemma run_pipeline_ok youtube queries window_hours max_age_days w data w1 f w2 :
  collect_new_channels youtube queries window_hours w = (Ok data, w1) ->
  filter_and_save_channels data max_age_days w1 = (Ok f, w2) ->
  run_pipeline youtube queries window_hours max_age_days w = (Ok tt, w2).
Proof.
  intros Hc Hf. unfold run_pipeline, bind. rewrite Hc, Hf. reflexivity.
Qed.

(** The run is the filter step on what the collection returned. *)
Lemma run_pipeline_filter youtube queries window_hours max_age_days w data w1 :
  collect_new_channels youtube queries window_hours w = (Ok data, w1) ->
  run_pipeline youtube queries window_hours max_age_days w
  = match filter_and_save_channels data max_age_days w1 with
    | (Ok _, w2) => (Ok tt, w2)
    | (Raise e, w2) => (Raise e, w2)
    end.
Proof.
  intros Hc. unfold run_pipeline, bind. rewrite Hc.
  destruct (filter_and_save_channels data max_age_days w1) as [[f | e] w2]; reflexivity.
Qed.

(** ** The properties of the specification *)

(** C10.  For the empty list of channel IDs [get_channel_details] returns
    the empty list and leaves the world as it found it: no remote call is
    issued, nothing is printed, the clock is not read. *)
Theorem get_channel_details_empty (youtube : client) (w : world) :
  get_channel_details youtube [] w = (Ok [], w).
Proof. reflexivity. Qed.

(** C7, where the program departs from it.  When pandas cannot subtract the
    two datetime columns (it refuses to subtract a column without a time
    zone, as a column of unparseable creation dates is, from one with a time
    zone) the function raises the exception of the subtraction: it does not
    print that nothing qualified and does not return the empty string, and a
    run whose collection produced these records ends with that exception. *)
Theorem unparseable_dates_raise (data : list channel) (max_age_days : float)
    (w : world) (published retrieved : datetimes) (e : pandas_error) :
  data <> [] ->
  to_datetime (map published_at data) = Returns published ->
  to_datetime (map data_retrieved_at data) = Returns retrieved ->
  timedelta_seconds retrieved published = Fails e ->
  filter_and_save_channels data max_age_days w = (Raise (exn_of e), w) /\
  (forall youtube queries window_hours w0,
     collect_new_channels youtube queries window_hours w0 = (Ok data, w) ->
     run_pipeline youtube queries window_hours max_age_days w0
     = (Raise (exn_of e), w)).
Proof.
  intros Hne Hp Ht Hs.
  assert (Hrun : filter_and_save_channels data max_age_days w = (Raise (exn_of e), w)).
  { rewrite filter_and_save_channels_stages by exact Hne.
    unfold filter_outcome, frame. rewrite Hp. simpl. rewrite Ht. simpl.
    rewrite Hs. reflexivity. }
  split; [exact Hrun |].
  intros youtube queries window_hours w0 Hc.
  rewrite (run_pipeline_filter _ _ _ _ _ _ _ Hc), Hrun. reflexivity.
Qed.

(** C9.  Without a credential (the variable is unset or empty after
    [load_dotenv()]) [main] raises the configuration error in the world it
    started in: no remote call has been made, nothing printed, no file
    written.  With a credential [main] runs the pipeline with the client
    built from it and never raises the configuration error. *)
Theorem missing_credential_is_fatal (w : world) :
  (getenv "YOUTUBE_API_KEY" = None \/ getenv "YOUTUBE_API_KEY" = Some "" ->
   main w = (Raise missing_key, w)) /\
  (forall api_key,
     getenv "YOUTUBE_API_KEY" = Some api_key -> api_key <> "" ->
     main w = run_pipeline (get_youtube_client api_key) search_queries 24 thirty w /\
     forall msg, fst (main w) <> Raise (RuntimeError msg)).
Proof.
  split.
  - intros [H | H]; unfold main; rewrite H; reflexivity.
  - intros api_key H Hne.
    pose proof (main_with_key api_key w H Hne) as Hmain.
    split; [exact Hmain |].
    intros msg Hraise. rewrite Hmain in Hraise.
    destruct (run_pipeline _ _ _ _ w) as [[u | e] w'] eqn:Hrun;
      simpl in Hraise; [discriminate |].
    injection Hraise as ->.
    apply run_pipeline_raises in Hrun as [Hrun | [Hrun | [pe Hrun]]];
      try discriminate.
    destruct pe; discriminate.
Qed.


(** ** Enrichment in batches *)

Lemma join_strs sep l : Forall is_str l -> exists s, join sep l = Ok s.
Proof.
  induction 1 as [| v rest [s ->] _ [t IH]]; simpl; [eauto |].
  rewrite IH. destruct rest; eauto.
Qed.

(** Building a record reads the clock and touches nothing else. *)
Lemma channel_of_item_frame item w :
  let w' := snd (channel_of_item item w) in
  calls w' = calls w /\ stdout w' = stdout w /\ files w' = files w.
Proof.
  unfold channel_of_item, bind, lift, utcnow, ret.
  repeat match goal with
         | |- context [get ?o ?k ?d] => destruct (get o k d)
         end; simpl; auto.
Qed.

Lemma details_items_frame items : forall data w,
  let w' := snd (details_items items data w) in
  calls w' = calls w /\ files w' = files w.
Proof.
  induction items as [| item rest IH]; intros data w; simpl; [auto |].
  pose proof (channel_of_item_frame item w) as (Hc & _ & Hf).
  destruct (channel_of_item item w) as [[c | e] w1]; simpl in *.
  - destruct (IH (data ++ [c]) w1) as [-> ->]. auto.
  - auto.
Qed.

Lemma details_except_frame e w :
  let w' := snd (details_except e w) in
  calls w' = calls w /\ files w' = files w.
Proof. destruct e; simpl; auto. Qed.

(** A batch of strings that is not empty costs exactly one call. *)
Lemma get_channel_details_calls youtube batch w :
  batch <> [] -> Forall is_str batch ->
  exists data w' r,
    get_channel_details youtube batch w = (Ok data, w') /\
    calls w' = calls w ++ [r] /\ channels_request batch r.
Proof.
  intros Hne Hstr.
  destruct (get_channel_details_ok youtube batch w) as (data & w' & Hrun).
  exists data, w'.
  destruct (join_strs "," batch Hstr) as [ids Hids].
  exists (ChannelsList ids "snippet,statistics").
  split; [exact Hrun |]. split; [| exists ids; auto].
  revert Hrun. unfold get_channel_details.
  destruct batch as [| x l]; [contradiction |].
  intros Hrun. apply bind_ok in Hrun as ([d oe] & w1 & Htry & Hrest).
  assert (Hw1 : calls w1 = calls w ++ [ChannelsList ids "snippet,statistics"]).
  { revert Htry. unfold details_try. rewrite Hids. unfold execute.
    destruct (youtube _ _) as [resp | e]; [| intros [= _ _ <-]; reflexivity].
    destruct (get resp _ _) as [o | e]; [| intros [= _ _ <-]; reflexivity].
    destruct (iter o) as [items | e]; [| intros [= _ _ <-]; reflexivity].
    intros Hitems.
    pose proof (details_items_frame items [] (World (ticks w)
      (calls w ++ [ChannelsList ids "snippet,statistics"]) (stdout w) (files w)))
      as [Hc _].
    rewrite Hitems in Hc. exact Hc. }
  simpl in Hrest. destruct oe as [e |].
  - apply bind_ok in Hrest as ([] & w2 & Hex & Hret).
    pose proof (details_except_frame e w1) as [Hc _]. rewrite Hex in Hc. simpl in Hc.
    injection Hret as _ <-. congruence.
  - injection Hrest as _ <-. exact Hw1.
Qed.

Lemma range0_lt n k : (k < (n + 50 - 1) / 50 -> k * 50 < n)%nat.
Proof.
  intros H.
  pose proof (Nat.div_mod_eq (n + 50 - 1) 50).
  pose proof (Nat.mod_upper_bound (n + 50 - 1) 50).
  lia.
Qed.

Lemma range0_covers n : (n <= (n + 50 - 1) / 50 * 50)%nat.
Proof.
  pose proof (Nat.div_mod_eq (n + 50 - 1) 50).
  pose proof (Nat.mod_upper_bound (n + 50 - 1) 50).
  lia.
Qed.

Lemma slice_50 {A} (l : list A) i : slice l i (i + 50) = firstn 50 (skipn i l).
Proof. unfold slice. f_equal. lia. Qed.

(** The first [m] batches make up the first [50 m] elements. *)
Lemma concat_slices {A} (l : list A) m :
  concat (map (fun i => slice l i (i + 50)) (map (fun k => (k * 50)%nat) (seq 0 m)))
  = firstn (m * 50) l.
Proof.
  induction m as [| m IH]; [reflexivity |].
  rewrite seq_S, !map_app, concat_app, IH. cbn [map concat].
  rewrite app_nil_r, slice_50, take_take_drop. f_equal. lia.
Qed.

(** The loop over any start indices inside the list. *)
Lemma enrich_calls youtube l starts : forall data w,
  Forall is_str l ->
  Forall (fun i => (i < length l)%nat) starts ->
  exists data' w' requests,
    enrich youtube l starts data w = (Ok data', w') /\
    calls w' = calls w ++ requests /\
    Forall2 channels_request (map (fun i => slice l i (i + 50)) starts) requests.
Proof.
  induction starts as [| i rest IH]; intros data w Hstr Hin; simpl.
  - exists data, w, []. rewrite app_nil_r. repeat split; constructor.
  - inversion Hin as [| ? ? Hi Hrest]; subst.
    destruct (get_channel_details_calls youtube (slice l i (i + 50)) w)
      as (d & w1 & r & Hrun & Hcalls & Hreq).
    + rewrite slice_50. intros Hnil.
      assert (Hlen : length (firstn 50 (skipn i l)) = 0%nat)
        by (rewrite Hnil; reflexivity).
      rewrite length_take, length_drop in Hlen. lia.
    + rewrite slice_50. apply Forall_take, Forall_drop, Hstr.
    + destruct (IH (data ++ d) w1 Hstr Hrest)
        as (data' & w' & requests & Hloop & Hcalls' & Hreqs).
      exists data', w', (r :: requests). split; [| split].
      * unfold bind at 1. rewrite Hrun. run. exact Hloop.
      * rewrite Hcalls', Hcalls, <- app_assoc. reflexivity.
      * constructor; assumption.
Qed.

(** The loop calls [get_channel_details] on the slices at its start
    indices. *)
Lemma enrich_details_of_batches youtube l starts : forall data w,
  enrich youtube l starts data w
  = details_of_batches youtube (map (fun i => slice l i (i + 50)) starts) data w.
Proof.
  induction starts as [| i rest IH]; intros data w; simpl; [reflexivity |].
  unfold bind at 1 3.
  destruct (get_channel_details youtube (slice l i (i + 50)) w) as [[d | e] w1];
    [| reflexivity].
  unfold bind, sleep, ret. apply IH.
Qed.

(** C2.  Once the discovery loop of [collect_new_channels] has returned the
    set of IDs, the function is the enrichment loop over the batches of the
    listed set: with [n] IDs it calls [get_channel_details] once per batch,
    that is [ceil(n / 50)] times, where [n] is the size of the set when
    listing it yields each member once; the batches concatenate to the
    list, none is empty and none has more than 50 IDs; for 120 IDs they
    have 50, 50 and 20.  When the IDs are strings the function returns,
    and after the searches it has issued exactly one [channels.list]
    request per batch, in order, each for the IDs of its batch: three
    requests for 120 IDs. *)
Theorem enrichment_batches (youtube : client) (queries : list string)
    (window_hours : Z) (w : world) (all_channel_ids : pyset) (w1 : world) :
  let published_after :=
    (isoformat (clock (ticks w) - window_hours * hour) ++ "Z")%string in
  let w0 := World (S (ticks w)) (calls w) (stdout w) (files w) in
  discover youtube queries published_after [] w0 = (Ok all_channel_ids, w1) ->
  let channel_id_list := list_of_set all_channel_ids in
  let n := length channel_id_list in
  collect_new_channels youtube queries window_hours w
  = details_of_batches youtube (batches channel_id_list) [] w1 /\
  (Permutation channel_id_list all_channel_ids -> length all_channel_ids = n) /\
  length (batches channel_id_list) = ((n + 49) / 50)%nat /\
  concat (batches channel_id_list) = channel_id_list /\
  Forall (fun b => (0 < length b <= 50)%nat) (batches channel_id_list) /\
  (n = 120%nat -> map length (batches channel_id_list) = [50; 50; 20]%nat) /\
  (Forall is_str channel_id_list ->
   exists data w' requests,
     collect_new_channels youtube queries window_hours w = (Ok data, w') /\
     calls w' = calls w1 ++ requests /\
     Forall2 channels_request (batches channel_id_list) requests /\
     length requests = ((n + 49) / 50)%nat /\
     (n = 120%nat -> length requests = 3%nat)).
Proof.
  intros published_after w0 Hd channel_id_list n.
  assert (Hcollect : collect_new_channels youtube queries window_hours w
                     = enrich youtube channel_id_list (range0 n 50) [] w1).
  { unfold collect_new_channels, bind at 1, utcnow.
    fold published_after. fold w0. unfold bind at 1. rewrite Hd. reflexivity. }
  assert (Hlen : length (batches channel_id_list) = ((n + 49) / 50)%nat).
  { unfold batches, range0. rewrite !length_map, length_seq. fold n.
    f_equal. lia. }
  assert (Hstarts : Forall (fun i => (i < n)%nat) (range0 n 50)).
  { unfold range0. apply List.Forall_forall. intros i Hi.
    apply in_map_iff in Hi as (k & <- & Hk). apply in_seq in Hk.
    apply range0_lt. lia. }
  split; [rewrite Hcollect; apply enrich_details_of_batches |].
  split; [intros Hperm; symmetry; apply Permutation_length, Hperm |].
  split; [exact Hlen |]. split; [| split; [| split]].
  - unfold batches, range0. rewrite concat_slices.
    apply firstn_all2. apply range0_covers.
  - unfold batches. apply List.Forall_forall. intros b Hb.
    apply in_map_iff in Hb as (i & <- & Hi).
    rewrite List.Forall_forall in Hstarts. apply Hstarts in Hi.
    rewrite slice_50, length_take, length_drop. fold n. lia.
  - intros Hn. unfold batches. fold n. rewrite Hn. simpl.
    rewrite !slice_50, !length_take, !length_drop. fold n. rewrite Hn. reflexivity.
  - intros Hstr.
    destruct (enrich_calls youtube channel_id_list (range0 n 50) [] w1 Hstr Hstarts)
      as (data & w' & requests & Hrun & Hcalls & Hreqs).
    assert (Hcount : length requests = ((n + 49) / 50)%nat).
    { rewrite <- Hlen. symmetry. eapply Forall2_length. exact Hreqs. }
    exists data, w', requests. rewrite Hcollect.
    repeat split; try assumption.
    intros Hn. rewrite Hcount, Hn. reflexivity.
Qed.

(** ** Deduplication *)

Lemma set_update_app s xs ys :
  set_update s (xs ++ ys)
  = match set_update s xs with
    | Ok s' => set_update s' ys
    | Raise e => Raise e
    end.
Proof.
  revert s; induction xs as [| x rest IH]; intros s; simpl; [reflexivity |].
  destruct (set_add s x); [apply IH | reflexivity].
Qed.

(** The set the loop ends with is the start set updated with all results. *)
Lemma discover_update youtube queries published_after : forall s w s' w',
  discover youtube queries published_after s w = (Ok s', w') ->
  set_update s (concat (search_results youtube queries published_after w)) = Ok s' /\
  length (search_results youtube queries published_after w) = length queries.
Proof.
  induction queries as [| query rest IH]; intros s w s' w'; simpl.
  - unfold ret. intros [= <- _]. auto.
  - intros H. apply bind_ok in H as (ids & w1 & Hs & H). rewrite Hs.
    apply bind_ok in H as (s1 & w2 & Hup & H). injection Hup as Hup <-.
    apply bind_ok in H as ([] & w3 & Hsl & H). injection Hsl as <-.
    apply IH in H as [H Hlen]. simpl. rewrite set_update_app, Hup, Hlen. auto.
Qed.

Lemma set_update_size xs : forall s s',
  set_update s xs = Ok s' ->
  NoDup (map hash_key s) ->
  (length s' <= length s + length xs)%nat /\
  NoDup (map hash_key s') /\
  (length s' = (length s + length xs)%nat <-> NoDup (map hash_key (s ++ xs))).
Proof.
  induction xs as [| x rest IH]; intros s s'; simpl.
  - intros [= <-] Hs. rewrite app_nil_r. split; [lia |]. split; [exact Hs |].
    split; [auto | lia].
  - unfold set_add. destruct (hash_key x) as [k |] eqn:Hk; [| discriminate].
    unfold member. case_bool_decide as Hmem; intros Hup Hs.
    + destruct (IH s s' Hup Hs) as (Hle & Hnd & _).
      split; [lia |]. split; [exact Hnd |]. split; [lia |].
      rewrite map_app. simpl. rewrite Hk. intros Hdup.
      apply NoDup_app in Hdup as (_ & Hdisj & _).
      exfalso. apply (Hdisj _ Hmem). left.
    + assert (Hs1 : NoDup (map hash_key (s ++ [x]))).
      { rewrite map_app. simpl. rewrite Hk. apply NoDup_app.
        split; [exact Hs |]. split; [| apply NoDup_singleton].
        intros y Hy Hin. apply list_elem_of_singleton in Hin. subst y. auto. }
      destruct (IH (s ++ [x]) s' Hup Hs1) as (Hle & Hnd & Heq).
      rewrite length_app in Hle, Heq. simpl in Hle, Heq.
      rewrite <- app_assoc in Heq. simpl in Heq.
      split; [lia |]. split; [exact Hnd |].
      rewrite <- Heq. lia.
Qed.


(** C4.  The deduplicated set the discovery loop accumulates has at most as
    many members as the queries returned results in total, and exactly as
    many if and only if no ID occurs twice among all the results, within a
    query or across queries. *)
Theorem dedup_size_bound (youtube : client) (queries : list string)
    (published_after : string) (w : world) (all_channel_ids : pyset) (w' : world) :
  discover youtube queries published_after [] w = (Ok all_channel_ids, w') ->
  let results := search_results youtube queries published_after w in
  length results = length queries /\
  (length all_channel_ids <= list_sum (map length results))%nat /\
  (length all_channel_ids = list_sum (map length results)
   <-> NoDup (map hash_key (concat results))) /\
  NoDup (map hash_key all_channel_ids).
Proof.
  intros Hrun results.
  destruct (discover_update _ _ _ _ _ _ _ Hrun) as [Hup Hlen].
  destruct (set_update_size _ _ _ Hup) as (Hle & Hnd & Heq); [constructor |].
  fold results in Hup, Hlen, Hle, Heq.
  rewrite length_concat in Hle, Heq. simpl in Hle, Heq.
  repeat split; try assumption; apply Heq.
Qed.

(** ** Defaults for missing fields *)

(** The record built from an item that is an object whose [snippet] and
    [statistics] are objects (or absent, which reads as the empty object). *)
Lemma channel_of_item_dict di ds dst w :
  get (JDict di) "snippet" (JDict []) = Ok (JDict ds) ->
  get (JDict di) "statistics" (JDict []) = Ok (JDict dst) ->
  channel_of_item (JDict di) w
  = (Ok (Channel (lookup di "id" JNull)
           (lookup ds "title" (JStr "")) (lookup ds "publishedAt" (JStr ""))
           (lookup dst "subscriberCount" (JNum 0)) (lookup dst "videoCount" (JNum 0))
           (lookup dst "viewCount" (JNum 0))
           (JStr (isoformat (clock (ticks w)) ++ "Z")%string)),
     World (S (ticks w)) (calls w) (stdout w) (files w)).
Proof.
  intros Hs Ht. unfold channel_of_item, bind, lift.
  rewrite Hs, Ht. reflexivity.
Qed.


(** C8, as the program has it.  When a record survives and the function
    returns, it has written exactly one file: its name is
    [new_youtube_channels_<date>.csv] for the date of the clock at that
    moment, its header lists the seven fields of the record followed by the
    three columns the function computes (the two parsed timestamps and the
    age), it holds one row per survivor, and every row has a cell for each
    of the ten columns. *)
Theorem written_file_layout (data : list channel) (max_age_days : float) (w : world)
    (df : list frame_row) (f : string) (w' : world) :
  frame data = Ok df ->
  df_new df max_age_days <> [] ->
  filter_and_save_channels data max_age_days w = (Ok f, w') ->
  f = ("new_youtube_channels_" ++ strftime_Ymd (clock (ticks w)) ++ ".csv")%string /\
  exists t,
    files w' = <[f := t]> (files w) /\
    header t = ["channel_id"; "channel_title"; "published_at";
                "subscriber_count"; "video_count"; "view_count";
                "data_retrieved_at"; "published_at_dt";
                "data_retrieved_at_dt"; "channel_age_days"] /\
    header t = record_fields ++ ["published_at_dt"; "data_retrieved_at_dt";
                                 "channel_age_days"] /\
    length (body t) = length (df_new df max_age_days) /\
    Forall (fun row => length row = length (header t)) (body t).
Proof.
  intros Hframe Hne Hrun.
  apply filter_and_save_channels_returns in Hrun
    as [(-> & _) | (_ & df' & columns & Hframe' & _ & Hrun)].
  { apply frame_rows in Hframe as (p & t & s & _ & _ & _ & ->).
    exfalso. apply Hne. reflexivity. }
  rewrite Hframe in Hframe'. injection Hframe' as <-.
  destruct Hrun as [(Hnone & _) | (_ & -> & ->)]; [contradiction |].
  split; [reflexivity |].
  destruct (saved_file (df_new df max_age_days) columns w)
    as (t & Hfiles & Hheader & Hlen & _ & Hrows & _).
  exists t. split; [exact Hfiles |]. rewrite Hheader.
  split; [reflexivity |]. split; [reflexivity |]. split; [exact Hlen |].
  eapply Forall_impl; [exact Hrows |].
  intros row (r & s & v & n & _ & ->). reflexivity.
Qed.

(** The ages of a frame depend on the two columns of stamps only. *)
Lemma frame_ages data data' df :
  map published_at data' = map published_at data ->
  map data_retrieved_at data' = map data_retrieved_at data ->
  frame data = Ok df ->
  exists df',
    frame data' = Ok df' /\ map record df' = data' /\
    map channel_age_days df' = map channel_age_days df.
Proof.
  intros Hp Ht Hframe.
  apply frame_rows in Hframe as (p & t & s & Hpub & Hret & Hsec & ->).
  exists (rows_of data' p t s).
  split; [apply frame_returns; congruence |].
  split; [apply rows_of_records |].
  assert (Hlen : length data' = length data).
  { rewrite <- (length_map published_at data'), Hp. apply length_map. }
  apply list_eq. intros i. unfold rows_of.
  change (map ?f ?l) with (f <$> l).
  rewrite !list_lookup_fmap, !list_lookup_imap.
  destruct (data !! i) as [c |] eqn:Hc, (data' !! i) as [c' |] eqn:Hc'; try reflexivity.
  - apply lookup_lt_Some in Hc. apply lookup_ge_None in Hc'. lia.
  - apply lookup_lt_Some in Hc'. apply lookup_ge_None in Hc. lia.
Qed.

(** C3, as the program has it.  An item that is an object, whose [snippet]
    and [statistics] are objects or absent, always yields a record: a
    missing id, title, creation date or statistic is replaced by its default.
    The age filter reads the two columns of stamps only: when the record is
    replaced by one with the same two stamps, whatever its title and counts,
    every row has the same age and the same rows are kept.  A row whose age
    is [NaN], as pandas gives it for a creation date it cannot parse in a
    column that holds dates, is kept under no threshold. *)
Theorem defaults_and_eligibility di ds dst w :
  get (JDict di) "snippet" (JDict []) = Ok (JDict ds) ->
  get (JDict di) "statistics" (JDict []) = Ok (JDict dst) ->
  exists c w',
    channel_of_item (JDict di) w = (Ok c, w') /\
    channel_id c = lookup di "id" JNull /\
    channel_title c = lookup ds "title" (JStr "") /\
    published_at c = lookup ds "publishedAt" (JStr "") /\
    subscriber_count c = lookup dst "subscriberCount" (JNum 0) /\
    video_count c = lookup dst "videoCount" (JNum 0) /\
    view_count c = lookup dst "viewCount" (JNum 0) /\
    (forall data i c' df max_age_days,
       data !! i = Some c ->
       published_at c' = published_at c ->
       data_retrieved_at c' = data_retrieved_at c ->
       frame data = Ok df ->
       exists df',
         frame (<[i := c']> data) = Ok df' /\
         map record df' = <[i := c']> data /\
         map channel_age_days df' = map channel_age_days df /\
         map (young max_age_days) df' = map (young max_age_days) df) /\
    (forall data df r max_age_days,
       frame data = Ok df ->
       In r df -> record r = c ->
       channel_age_days r = F64.nan ->
       ~ In r (df_new df max_age_days)).
Proof.
  intros Hs Ht. eexists _, _.
  split; [apply channel_of_item_dict; eassumption |]. simpl.
  repeat split; try reflexivity.
  - intros data i c' df max_age_days Hc Hp Hr Hframe.
    assert (Hsame : forall f : channel -> json,
              f c' = f (Channel (lookup di "id" JNull)
                          (lookup ds "title" (JStr ""))
                          (lookup ds "publishedAt" (JStr ""))
                          (lookup dst "subscriberCount" (JNum 0))
                          (lookup dst "videoCount" (JNum 0))
                          (lookup dst "viewCount" (JNum 0))
                          (JStr (isoformat (clock (ticks w)) ++ "Z")%string)) ->
              map f (<[i := c']> data) = map f data).
    { intros f Hf. change (map f ?l) with (f <$> l).
      rewrite list_fmap_insert, Hf. apply list_insert_id.
      rewrite list_lookup_fmap, Hc. reflexivity. }
    destruct (frame_ages data (<[i := c']> data) df
                (Hsame published_at Hp) (Hsame data_retrieved_at Hr) Hframe)
      as (df' & Hframe' & Hrec & Hages).
    exists df'. repeat split; try assumption.
    unfold young.
    rewrite <- !(List.map_map channel_age_days (fun a => F64.leb a max_age_days)).
    rewrite Hages. reflexivity.
  - intros data df r max_age_days _ _ _ Hnan Hkept.
    apply df_new_In in Hkept as [_ Hy]. unfold young in Hy.
    rewrite Hnan in Hy. discriminate Hy.
Qed.

(** ** Remote failures *)

Lemma search_new_videos_fails youtube query published_after w e :
  youtube (length (calls w)) (search_request query published_after) = Raise e ->
  search_new_videos youtube query published_after w
  = (Ok [],
     World (ticks w) (calls w ++ [search_request query published_after])
       (stdout w ++ [search_diagnostic query e]) (files w)).
Proof.
  intros H. unfold search_new_videos, bind, search_try, execute.
  rewrite H. simpl. destruct e; reflexivity.
Qed.






Lemma discover_step youtube query rest published_after s w ids w1 :
  search_new_videos youtube query published_after w = (Ok ids, w1) ->
  discover youtube (query :: rest) published_after s w
  = match set_update s ids with
    | Ok s1 => discover youtube rest published_after s1 w1
    | Raise e => (Raise e, w1)
    end.
Proof.
  intros Hs. simpl. unfold bind, lift, sleep, ret. rewrite Hs.
  destruct (set_update s ids); reflexivity.
Qed.



(** ** Further properties: discovery *)

Lemma search_items_readable items : forall acc,
  Forall readable_hit items -> search_items items acc = (acc ++ hits items, None).
Proof.
  induction items as [| item rest IH]; intros acc H; simpl.
  - rewrite app_nil_r. reflexivity.
  - inversion H as [| ? ? [l Hl] Hrest]; subst. revert Hl. unfold hits, hit. simpl.
    destruct (get item "snippet" (JDict [])) as [snippet |]; [| discriminate].
    destruct (get snippet "channelId" JNull) as [c |]; [| discriminate].
    intros _. rewrite (IH _ Hrest). unfold hits.
    destruct (truthy c); simpl; rewrite <- ?app_assoc; reflexivity.
Qed.

Lemma search_items_truthy items : forall acc,
  Forall (fun x => truthy x = true) acc ->
  Forall (fun x => truthy x = true) (fst (search_items items acc)) /\
  (length (fst (search_items items acc)) <= length acc + length items)%nat.
Proof.
  induction items as [| item rest IH]; intros acc H; simpl.
  - split; [exact H | lia].
  - destruct (get item "snippet" (JDict [])) as [snippet |]; [| simpl; split; [exact H | lia]].
    destruct (get snippet "channelId" JNull) as [c |]; [| simpl; split; [exact H | lia]].
    destruct (truthy c) eqn:Hc.
    + destruct (IH (acc ++ [c])) as [Ht Hl].
      { apply Forall_app. split; [exact H | repeat constructor; exact Hc]. }
      split; [exact Ht |]. rewrite length_app in Hl. simpl in Hl. lia.
    + destruct (IH acc H) as [Ht Hl]. split; [exact Ht | lia].
Qed.

Lemma search_new_videos_truthy youtube query published_after w ids w1 :
  search_new_videos youtube query published_after w = (Ok ids, w1) ->
  Forall (fun x => truthy x = true) ids.
Proof.
  intros Hrun.
  destruct (search_try_ok youtube query published_after w) as ([l oe] & w0 & Htry).
  assert (ids = l) as ->.
  { revert Hrun. unfold search_new_videos, bind. rewrite Htry.
    simpl. destruct oe as [e |]; [| intros [= <- _]; reflexivity].
    destruct e; simpl; intros [= <- _]; reflexivity. }
  revert Htry. unfold search_try, execute.
  destruct (youtube _ _) as [resp | e]; [| intros [= <- _ _]; constructor].
  destruct (get resp _ _) as [o | e]; [| intros [= <- _ _]; constructor].
  destruct (iter o) as [items | e]; [| intros [= <- _ _]; constructor].
  intros [= Hs _].
  pose proof (search_items_truthy items [] (List.Forall_nil _)) as [Ht _].
  rewrite Hs in Ht. exact Ht.
Qed.

(** What a search leaves behind, whatever the service answers. *)
Lemma search_new_videos_effect youtube query published_after w ids w1 :
  search_new_videos youtube query published_after w = (Ok ids, w1) ->
  exists msgs,
    w1 = World (ticks w) (calls w ++ [search_request query published_after])
           (stdout w ++ msgs) (files w) /\
    (length msgs <= 1)%nat.
Proof.
  unfold search_new_videos. intros H.
  apply bind_ok in H as ([l oe] & w0 & Htry & H).
  assert (Hw0 : w0 = World (ticks w) (calls w ++ [search_request query published_after])
                       (stdout w) (files w)).
  { revert Htry. unfold search_try, execute.
    destruct (youtube _ _) as [resp | e]; [| intros [= _ _ <-]; reflexivity].
    destruct (get resp _ _) as [o | e]; [| intros [= _ _ <-]; reflexivity].
    destruct (iter o) as [items | e];
      [intros [= _ <-] | intros [= _ _ <-]]; reflexivity. }
  subst w0. simpl in H. destruct oe as [e |].
  - apply bind_ok in H as ([] & w2 & Hex & Hret). injection Hret as _ <-.
    exists [search_diagnostic query e]. split; [| simpl; lia].
    destruct e; injection Hex as <-; reflexivity.
  - injection H as _ <-. exists []. rewrite app_nil_r. split; [reflexivity | simpl; lia].
Qed.

(** X1.  When the search call returns an object whose [items] (absent reads
    as empty) is a list of readable items, [search_new_videos] returns the
    truthy [snippet.channelId] values of the items, in order and with
    repetitions; items without a snippet or a channel ID are skipped; the
    one request is logged and nothing is printed. *)
Theorem search_new_videos_returns_hits (youtube : client)
    (query published_after : string) (w : world) (response : json)
    (items : list json) :
  youtube (length (calls w)) (search_request query published_after) = Ok response ->
  get response "items" (JList []) = Ok (JList items) ->
  Forall readable_hit items ->
  search_new_videos youtube query published_after w
  = (Ok (hits items),
     World (ticks w) (calls w ++ [search_request query published_after])
       (stdout w) (files w)).
Proof.
  intros Hcall Hitems Hread.
  unfold search_new_videos, bind, search_try, execute.
  rewrite Hcall, Hitems. simpl. rewrite (search_items_readable _ _ Hread). reflexivity.
Qed.

(** X2.  Whatever the service answers, every ID [search_new_videos] returns
    is truthy, there are at most as many as the response has items, the
    function issues exactly its one request, prints at most one line, and
    neither reads the clock nor touches a file. *)
Theorem search_new_videos_invariants (youtube : client)
    (query published_after : string) (w : world) :
  exists ids w1 msgs,
    search_new_videos youtube query published_after w = (Ok ids, w1) /\
    Forall (fun x => truthy x = true) ids /\
    w1 = World (ticks w) (calls w ++ [search_request query published_after])
           (stdout w ++ msgs) (files w) /\
    (length msgs <= 1)%nat /\
    (forall response o items,
       youtube (length (calls w)) (search_request query published_after)
       = Ok response ->
       get response "items" (JList []) = Ok o -> iter o = Ok items ->
       (length ids <= length items)%nat) /\
    (forall e,
       youtube (length (calls w)) (search_request query published_after) = Raise e ->
       ids = []).
Proof.
  destruct (search_new_videos_ok youtube query published_after w) as (ids & w1 & Hrun).
  destruct (search_new_videos_effect _ _ _ _ _ _ Hrun) as (msgs & Hw1 & Hmsgs).
  exists ids, w1, msgs. split; [exact Hrun |].
  split; [eapply search_new_videos_truthy; exact Hrun |].
  split; [exact Hw1 |]. split; [exact Hmsgs |]. split.
  - intros response o items Hcall Ho Hitems.
    assert (Hids : ids = fst (search_items items [])).
    { revert Hrun. unfold search_new_videos, bind, search_try, execute.
      rewrite Hcall, Ho, Hitems. simpl.
      destruct (search_items items []) as [l [e |]]; simpl;
        [destruct e |]; intros [= <- _]; reflexivity. }
    rewrite Hids. apply (search_items_truthy items [] (List.Forall_nil _)).
  - intros e Hfail. rewrite (search_new_videos_fails _ _ _ _ _ Hfail) in Hrun.
    injection Hrun as <- _. reflexivity.
Qed.

Lemma get_raises o key default e : get o key default = Raise e -> e = AttributeError.
Proof. destruct o; simpl; congruence. Qed.

Lemma hit_unreadable item : ~ readable_hit item -> hit item = Raise AttributeError.
Proof.
  intros H. unfold readable_hit in H. unfold hit in *.
  destruct (get item "snippet" (JDict [])) as [snippet | e] eqn:Hs.
  - destruct (get snippet "channelId" JNull) as [c | e] eqn:Hc.
    + exfalso. apply H. eauto.
    + apply get_raises in Hc as ->. reflexivity.
  - apply get_raises in Hs as ->. reflexivity.
Qed.

Lemma search_items_stops good bad rest : forall acc,
  Forall readable_hit good -> ~ readable_hit bad ->
  search_items (good ++ bad :: rest) acc = (acc ++ hits good, Some AttributeError).
Proof.
  induction good as [| item good IH]; intros acc Hgood Hbad; simpl.
  - apply hit_unreadable in Hbad. revert Hbad. unfold hit.
    destruct (get bad "snippet" (JDict [])) as [snippet |];
      [| intros [= ->]; rewrite app_nil_r; reflexivity].
    destruct (get snippet "channelId" JNull) as [c |]; [discriminate |].
    intros [= ->]. rewrite app_nil_r. reflexivity.
  - inversion Hgood as [| ? ? [l Hl] Hrest]; subst. revert Hl. unfold hits, hit. simpl.
    destruct (get item "snippet" (JDict [])) as [snippet |]; [| discriminate].
    destruct (get snippet "channelId" JNull) as [c |]; [| discriminate].
    intros _. rewrite (IH _ Hrest Hbad). unfold hits.
    destruct (truthy c); simpl; rewrite <- ?app_assoc; reflexivity.
Qed.

(** X19.  A search response that is not an object, or whose [items] cannot
    be iterated, counts as a failure of the call: the empty list is returned
    and the unexpected-error line is printed, with the [AttributeError] or
    [TypeError] the interpreter raised. *)
Theorem search_new_videos_malformed_response (youtube : client)
    (query published_after : string) (w : world) (response : json) (e : exn) :
  youtube (length (calls w)) (search_request query published_after) = Ok response ->
  get response "items" (JList []) = Raise e \/
  (exists o, get response "items" (JList []) = Ok o /\ iter o = Raise e) ->
  search_new_videos youtube query published_after w
  = (Ok [],
     World (ticks w) (calls w ++ [search_request query published_after])
       (stdout w ++ [SearchUnexpectedError query e]) (files w)) /\
  (e = AttributeError \/ e = TypeError).
Proof.
  intros Hcall Hbad.
  assert (He : e = AttributeError \/ e = TypeError).
  { destruct Hbad as [Hg | (o & _ & Hi)]; [left; eapply get_raises, Hg |].
    right. destruct o; simpl in Hi; congruence. }
  split; [| exact He].
  unfold search_new_videos, bind, search_try, execute. rewrite Hcall.
  destruct Hbad as [-> | (o & -> & ->)]; simpl;
    destruct He as [-> | ->]; reflexivity.
Qed.

(** X20.  An item the search loop cannot read (not an object, or with a
    snippet that is not an object) ends the scan of the response: the IDs of
    the readable items before it are returned, the items after it are never
    looked at, and the unexpected-error line is printed. *)
Theorem unreadable_hit_ends_the_scan (youtube : client)
    (query published_after : string) (w : world) (response : json)
    (good : list json) (bad : json) (rest : list json) :
  youtube (length (calls w)) (search_request query published_after) = Ok response ->
  get response "items" (JList []) = Ok (JList (good ++ bad :: rest)) ->
  Forall readable_hit good ->
  ~ readable_hit bad ->
  search_new_videos youtube query published_after w
  = (Ok (hits good),
     World (ticks w) (calls w ++ [search_request query published_after])
       (stdout w ++ [SearchUnexpectedError query AttributeError]) (files w)).
Proof.
  intros Hcall Hitems Hgood Hbad.
  unfold search_new_videos, bind, search_try, execute.
  rewrite Hcall, Hitems. simpl.
  rewrite (search_items_stops good bad rest [] Hgood Hbad). reflexivity.
Qed.

(** ** Further properties: enrichment *)

Lemma channel_of_item_record item w :
  channel_of_item item w
  = match record_of item (stamp_at (ticks w)) with
    | Ok c => (Ok c, World (S (ticks w)) (calls w) (stdout w) (files w))
    | Raise e => (Raise e, w)
    end.
Proof.
  unfold channel_of_item, record_of, and_then, bind, lift, utcnow, ret, stamp_at.
  repeat match goal with
         | |- context [get ?o ?k ?d] => destruct (get o k d)
         end; reflexivity.
Qed.

Lemma details_items_records items : forall data w,
  details_items items data w
  = (Ok (data ++ fst (records_from items (ticks w)), snd (records_from items (ticks w))),
     World (ticks w + length (fst (records_from items (ticks w)))) (calls w)
       (stdout w) (files w)).
Proof.
  induction items as [| item rest IH]; intros data w; simpl.
  - rewrite app_nil_r, Nat.add_0_r. destruct w; reflexivity.
  - rewrite channel_of_item_record.
    destruct (record_of item (stamp_at (ticks w))) as [c | e].
    + rewrite IH. simpl. destruct (records_from rest (S (ticks w))) as [cs oe]. simpl.
      rewrite <- app_assoc. simpl. do 3 f_equal. lia.
    + simpl. rewrite app_nil_r, Nat.add_0_r. destruct w; reflexivity.
Qed.

(** The function on a response whose [items] can be iterated. *)
Lemma get_channel_details_records youtube batch ids w response o items :
  batch <> [] ->
  join "," batch = Ok ids ->
  youtube (length (calls w)) (details_request ids) = Ok response ->
  get response "items" (JList []) = Ok o -> iter o = Ok items ->
  get_channel_details youtube batch w
  = (Ok (fst (records_from items (ticks w))),
     World (ticks w + length (fst (records_from items (ticks w))))
       (calls w ++ [details_request ids])
       (stdout w ++ match snd (records_from items (ticks w)) with
                    | Some e => [details_diagnostic e]
                    | None => []
                    end)
       (files w)).
Proof.
  intros Hne Hjoin Hcall Ho Hitems. unfold get_channel_details.
  destruct batch as [| x l]; [contradiction |].
  unfold bind, details_try, execute. rewrite Hjoin.
  unfold details_request in Hcall. rewrite Hcall, Ho, Hitems.
  rewrite details_items_records. simpl.
  destruct (snd (records_from items (ticks w))) as [e |]; simpl.
  - destruct e; reflexivity.
  - rewrite app_nil_r. reflexivity.
Qed.

Lemma record_of_readable item stamp :
  readable_item item -> exists c, record_of item stamp = Ok c.
Proof.
  intros (di & ds & dst & -> & Hs & Ht). unfold record_of, and_then.
  rewrite Hs, Ht. simpl. eauto.
Qed.

Lemma record_of_unreadable item stamp :
  ~ readable_item item -> record_of item stamp = Raise AttributeError.
Proof.
  intros H. unfold record_of, and_then.
  destruct item as [| | | | | di]; try reflexivity.
  simpl. destruct (lookup di "snippet" (JDict [])) as [| | | | | ds] eqn:Hs;
    try reflexivity.
  destruct (lookup di "statistics" (JDict [])) as [| | | | | dst] eqn:Ht;
    try reflexivity.
  exfalso. apply H. exists di, ds, dst. simpl. rewrite Hs, Ht. auto.
Qed.

Lemma records_from_readable items : forall tick,
  Forall readable_item items ->
  snd (records_from items tick) = None /\
  length (fst (records_from items tick)) = length items /\
  forall k item,
    items !! k = Some item ->
    exists c, fst (records_from items tick) !! k = Some c /\
              record_of item (stamp_at (tick + k)) = Ok c.
Proof.
  induction items as [| item rest IH]; intros tick H; simpl.
  - repeat split. intros k item Hk. discriminate.
  - inversion H as [| ? ? Hitem Hrest]; subst.
    destruct (record_of_readable item (stamp_at tick) Hitem) as [c Hc]. rewrite Hc.
    destruct (IH (S tick) Hrest) as (Hnone & Hlen & Hat).
    destruct (records_from rest (S tick)) as [cs oe]. simpl in *.
    split; [exact Hnone |]. split; [f_equal; exact Hlen |].
    intros k it Hk. destruct k as [| k]; simpl in Hk.
    + injection Hk as <-. exists c. rewrite Nat.add_0_r. auto.
    + destruct (Hat k it Hk) as (c' & Hc' & Hrec). exists c'. split; [exact Hc' |].
      replace (tick + S k)%nat with (S tick + k)%nat by lia. exact Hrec.
Qed.

Lemma records_from_stops good bad rest : forall tick,
  Forall readable_item good -> ~ readable_item bad ->
  records_from (good ++ bad :: rest) tick
  = (fst (records_from good tick), Some AttributeError).
Proof.
  induction good as [| item good IH]; intros tick Hgood Hbad; simpl.
  - rewrite (record_of_unreadable _ _ Hbad). reflexivity.
  - inversion Hgood as [| ? ? Hitem Hrest]; subst.
    destruct (record_of_readable item (stamp_at tick) Hitem) as [c ->].
    rewrite (IH (S tick) Hrest Hbad).
    destruct (records_from good (S tick)) as [cs oe]. reflexivity.
Qed.

Lemma join_not_strs sep l :
  Exists (fun v => ~ is_str v) l -> join sep l = Raise TypeError.
Proof.
  induction l as [| v rest IH]; intros H; [inversion H |].
  destruct v as [| | | s | |]; try reflexivity.
  inversion H as [? ? Hv | ? ? Hrest]; subst.
  - exfalso. apply Hv. eexists. reflexivity.
  - simpl. rewrite (IH Hrest). destruct rest; [inversion Hrest | reflexivity].
Qed.

(** X3.  When the [channels.list] call of a batch fails,
    [get_channel_details] returns the empty list: the request is logged, one
    diagnostic is printed (the HTTP one for an [HttpError]), the clock is not
    read and no file is touched. *)
Theorem get_channel_details_fails (youtube : client) (batch : list json)
    (ids : string) (w : world) (e : exn) :
  batch <> [] ->
  join "," batch = Ok ids ->
  youtube (length (calls w)) (details_request ids) = Raise e ->
  get_channel_details youtube batch w
  = (Ok [],
     World (ticks w) (calls w ++ [details_request ids])
       (stdout w ++ [details_diagnostic e]) (files w)).
Proof.
  intros Hne Hjoin Hcall. unfold get_channel_details.
  destruct batch as [| x l]; [contradiction |].
  unfold bind, details_try, execute. rewrite Hjoin.
  unfold details_request in Hcall. rewrite Hcall. simpl.
  destruct e; reflexivity.
Qed.

(** X4.  A batch that holds an ID that is not a string is dropped whole:
    joining the IDs raises inside the [try], so no request is issued at all,
    the empty list is returned and the unexpected-error line is printed. *)
Theorem get_channel_details_rejects_non_strings (youtube : client)
    (batch : list json) (w : world) :
  Exists (fun v => ~ is_str v) batch ->
  get_channel_details youtube batch w
  = (Ok [],
     World (ticks w) (calls w) (stdout w ++ [DetailsUnexpectedError TypeError])
       (files w)).
Proof.
  intros H. unfold get_channel_details.
  destruct batch as [| x l]; [inversion H |].
  unfold bind, details_try. rewrite (join_not_strs _ _ H). reflexivity.
Qed.

(** X5.  When the detail call returns an object whose [items] is a list of
    readable items, [get_channel_details] returns one record per item, in
    the order of the response; the record of item [k] carries the stamp of
    its own clock read, the [k]-th after the call; the clock is read once per
    record and nothing is printed. *)
Theorem get_channel_details_one_record_per_item (youtube : client)
    (batch : list json) (ids : string) (w : world) (response : json)
    (items : list json) :
  batch <> [] ->
  join "," batch = Ok ids ->
  youtube (length (calls w)) (details_request ids) = Ok response ->
  get response "items" (JList []) = Ok (JList items) ->
  Forall readable_item items ->
  exists data,
    get_channel_details youtube batch w
    = (Ok data,
       World (ticks w + length items) (calls w ++ [details_request ids])
         (stdout w) (files w)) /\
    length data = length items /\
    forall k item,
      items !! k = Some item ->
      exists c, data !! k = Some c /\
                record_of item (stamp_at (ticks w + k)) = Ok c /\
                data_retrieved_at c = JStr (stamp_at (ticks w + k)).
Proof.
  intros Hne Hjoin Hcall Hitems Hread.
  destruct (records_from_readable items (ticks w) Hread) as (Hnone & Hlen & Hat).
  exists (fst (records_from items (ticks w))). split; [| split; [exact Hlen |]].
  - rewrite (get_channel_details_records youtube batch ids w response
               (JList items) items Hne Hjoin Hcall Hitems eq_refl).
    rewrite Hnone, Hlen, app_nil_r. reflexivity.
  - intros k item Hk. destruct (Hat k item Hk) as (c & Hc & Hrec).
    exists c. split; [exact Hc |]. split; [exact Hrec |].
    revert Hrec. unfold record_of, and_then.
    repeat match goal with
           | |- context [get ?o ?key ?d] => destruct (get o key d)
           end; try discriminate.
    intros [= <-]. reflexivity.
Qed.

(** X6.  An item the loop cannot read ends it: the records of the readable
    items before it are returned, the items after it are never looked at,
    whatever they are, and one unexpected-error line is printed. *)
Theorem unreadable_item_ends_the_batch (youtube : client) (batch : list json)
    (ids : string) (w : world) (response : json) (good : list json)
    (bad : json) (rest : list json) :
  batch <> [] ->
  join "," batch = Ok ids ->
  youtube (length (calls w)) (details_request ids) = Ok response ->
  get response "items" (JList []) = Ok (JList (good ++ bad :: rest)) ->
  Forall readable_item good ->
  ~ readable_item bad ->
  exists data,
    get_channel_details youtube batch w
    = (Ok data,
       World (ticks w + length good) (calls w ++ [details_request ids])
         (stdout w ++ [DetailsUnexpectedError AttributeError]) (files w)) /\
    length data = length good /\
    forall k item,
      good !! k = Some item ->
      exists c, data !! k = Some c /\
                record_of item (stamp_at (ticks w + k)) = Ok c.
Proof.
  intros Hne Hjoin Hcall Hitems Hgood Hbad.
  destruct (records_from_readable good (ticks w) Hgood) as (_ & Hlen & Hat).
  exists (fst (records_from good (ticks w))). split; [| split; [exact Hlen | exact Hat]].
  rewrite (get_channel_details_records youtube batch ids w response
             (JList (good ++ bad :: rest)) (good ++ bad :: rest)
             Hne Hjoin Hcall Hitems eq_refl).
  rewrite (records_from_stops good bad rest (ticks w) Hgood Hbad). simpl.
  rewrite Hlen. reflexivity.
Qed.

(** ** Further properties: the collection as a whole *)

(** What the discovery loop leaves behind. *)
Lemma discover_effect youtube queries published_after : forall s w s' w',
  discover youtube queries published_after s w = (Ok s', w') ->
  exists msgs,
    w' = World (ticks w)
           (calls w ++ map (fun q => search_request q published_after) queries)
           (stdout w ++ msgs) (files w) /\
    (length msgs <= length queries)%nat.
Proof.
  induction queries as [| query rest IH]; intros s w s' w'; simpl.
  - unfold ret. intros [= _ <-]. exists []. rewrite !app_nil_r.
    split; [destruct w; reflexivity | simpl; lia].
  - intros H. apply bind_ok in H as (ids & w1 & Hs & H).
    apply bind_ok in H as (s1 & w2 & Hup & H). injection Hup as _ <-.
    apply bind_ok in H as ([] & w3 & Hsl & H). injection Hsl as <-.
    destruct (search_new_videos_effect _ _ _ _ _ _ Hs) as (m1 & -> & Hm1).
    destruct (IH _ _ _ _ H) as (m2 & -> & Hm2). simpl.
    exists (m1 ++ m2). rewrite <- !app_assoc. simpl.
    split; [reflexivity |]. rewrite length_app. lia.
Qed.

(** What a detail lookup leaves behind, whatever the service answers. *)
Lemma get_channel_details_effect youtube batch w data w1 :
  get_channel_details youtube batch w = (Ok data, w1) ->
  exists reqs msgs,
    w1 = World (ticks w + length data) (calls w ++ reqs) (stdout w ++ msgs) (files w) /\
    (length reqs <= 1)%nat /\ (length msgs <= 1)%nat /\
    Forall (fun r => exists ids, r = details_request ids) reqs.
Proof.
  unfold get_channel_details. destruct batch as [| x l].
  - unfold ret. intros [= <- <-]. exists [], []. simpl.
    rewrite !app_nil_r, Nat.add_0_r. repeat split; try lia; [| constructor].
    destruct w; reflexivity.
  - intros H. apply bind_ok in H as ([d oe] & w0 & Htry & H).
    assert (Hw0 : exists reqs,
               w0 = World (ticks w + length d) (calls w ++ reqs) (stdout w) (files w) /\
               (length reqs <= 1)%nat /\
               Forall (fun r => exists ids, r = details_request ids) reqs).
    { revert Htry. unfold details_try.
      destruct (join "," (x :: l)) as [ids | e].
      2:{ intros [= <- _ <-]. exists []. simpl. rewrite app_nil_r, Nat.add_0_r.
          repeat split; try lia; [| constructor]. destruct w; reflexivity. }
      assert (Hreq : Forall (fun r => exists ids, r = details_request ids)
                       [ChannelsList ids "snippet,statistics"])
        by (repeat constructor; exists ids; reflexivity).
      unfold execute.
      destruct (youtube _ _) as [resp | e].
      2:{ intros [= <- _ <-]. eexists. simpl. rewrite Nat.add_0_r.
          split; [reflexivity |]. split; [simpl; lia | exact Hreq]. }
      destruct (get resp _ _) as [o | e].
      2:{ intros [= <- _ <-]. eexists. simpl. rewrite Nat.add_0_r.
          split; [reflexivity |]. split; [simpl; lia | exact Hreq]. }
      destruct (iter o) as [items | e].
      2:{ intros [= <- _ <-]. eexists. simpl. rewrite Nat.add_0_r.
          split; [reflexivity |]. split; [simpl; lia | exact Hreq]. }
      rewrite details_items_records. simpl. intros [= <- _ <-].
      eexists. split; [reflexivity |]. split; [simpl; lia | exact Hreq]. }
    destruct Hw0 as (reqs & -> & Hreqs & Hall). simpl in H.
    destruct oe as [e |].
    + apply bind_ok in H as ([] & w2 & Hex & Hret). injection Hret as <- <-.
      exists reqs, [details_diagnostic e].
      split; [destruct e; injection Hex as <-; reflexivity |].
      repeat split; try assumption. simpl. lia.
    + injection H as <- <-. exists reqs, []. rewrite app_nil_r.
      repeat split; try assumption. simpl. lia.
Qed.

(** What the enrichment loop leaves behind. *)
Lemma enrich_effect youtube l starts : forall data w data' w',
  enrich youtube l starts data w = (Ok data', w') ->
  exists more reqs msgs,
    data' = data ++ more /\
    w' = World (ticks w + length more) (calls w ++ reqs) (stdout w ++ msgs) (files w) /\
    (length reqs <= length starts)%nat /\ (length msgs <= length starts)%nat /\
    Forall (fun r => exists ids, r = details_request ids) reqs.
Proof.
  induction starts as [| i rest IH]; intros data w data' w'; simpl.
  - unfold ret. intros [= <- <-]. exists [], [], []. simpl.
    rewrite !app_nil_r, Nat.add_0_r. repeat split; try lia; [| constructor].
    destruct w; reflexivity.
  - intros H. apply bind_ok in H as (d & w1 & Hd & H).
    apply bind_ok in H as ([] & w2 & Hsl & H). injection Hsl as <-.
    destruct (get_channel_details_effect _ _ _ _ _ Hd) as (r1 & m1 & -> & Hr1 & Hm1 & Ha1).
    destruct (IH _ _ _ _ H) as (more & r2 & m2 & -> & -> & Hr2 & Hm2 & Ha2). simpl.
    exists (d ++ more), (r1 ++ r2), (m1 ++ m2).
    rewrite <- !app_assoc, !length_app.
    split; [reflexivity |]. split; [f_equal; lia |].
    split; [lia |]. split; [lia |]. apply Forall_app. auto.
Qed.

(** X7.  A collection that returns has read the clock once before the
    discovery and once per record it returns; it has issued exactly one
    [search.list] request per query, in the order of the list and all with
    the same [publishedAfter], followed by at most one [channels.list]
    request per batch of 50 IDs; it has printed at most one line per request
    it could make, and it has touched no file. *)
Theorem collect_new_channels_effect (youtube : client) (queries : list string)
    (window_hours : Z) (w : world) (data : list channel) (w' : world) :
  collect_new_channels youtube queries window_hours w = (Ok data, w') ->
  let published_after :=
    (isoformat (clock (ticks w) - window_hours * hour) ++ "Z")%string in
  exists all_channel_ids reqs msgs,
    w' = World (S (ticks w) + length data)
           (calls w ++ map (fun q => search_request q published_after) queries ++ reqs)
           (stdout w ++ msgs) (files w) /\
    Forall (fun r => exists ids, r = details_request ids) reqs /\
    (length reqs <= (length (list_of_set all_channel_ids) + 49) / 50)%nat /\
    (length msgs
     <= length queries + (length (list_of_set all_channel_ids) + 49) / 50)%nat /\
    set_update []
      (concat (search_results youtube queries published_after
                 (World (S (ticks w)) (calls w) (stdout w) (files w))))
    = Ok all_channel_ids.
Proof.
  intros H published_after. unfold collect_new_channels in H.
  apply bind_ok in H as (now & w0 & Hnow & H). injection Hnow as <- <-.
  fold published_after in H.
  apply bind_ok in H as (ids & w1 & Hd & H).
  destruct (discover_effect _ _ _ _ _ _ _ Hd) as (m1 & -> & Hm1).
  destruct (enrich_effect _ _ _ _ _ _ _ H) as (more & reqs & m2 & -> & -> & Hr & Hm2 & Ha).
  destruct (discover_update _ _ _ _ _ _ _ Hd) as [Hup _].
  assert (Hn : length (range0 (length (list_of_set ids)) 50)
               = ((length (list_of_set ids) + 49) / 50)%nat).
  { unfold range0. rewrite length_map, length_seq. f_equal. lia. }
  rewrite Hn in Hr, Hm2.
  exists ids, reqs, (m1 ++ m2). cbn [ticks calls stdout files].
  rewrite <- !app_assoc.
  split; [reflexivity |]. split; [exact Ha |]. split; [exact Hr |].
  split; [rewrite length_app; lia | exact Hup].
Qed.

Lemma set_update_elements xs : forall s s',
  set_update s xs = Ok s' -> forall x, In x s' -> In x s \/ In x xs.
Proof.
  induction xs as [| y rest IH]; intros s s'; simpl.
  - intros [= <-] x Hx. auto.
  - unfold set_add. destruct (hash_key y); [| discriminate].
    destruct (member h s); intros Hup x Hx.
    + destruct (IH _ _ Hup x Hx); auto.
    + destruct (IH _ _ Hup x Hx) as [Hin | Hin]; [| auto].
      apply in_app_or in Hin as [Hin | [<- | []]]; auto.
Qed.

Lemma search_results_truthy youtube queries published_after : forall w,
  Forall (Forall (fun x => truthy x = true))
    (search_results youtube queries published_after w).
Proof.
  induction queries as [| query rest IH]; intros w; simpl; [constructor |].
  destruct (search_new_videos youtube query published_after w) as [[ids | e] w1] eqn:Hs;
    [| constructor].
  constructor; [eapply search_new_videos_truthy; eassumption | apply IH].
Qed.

Lemma in_slice {A} (l : list A) i j x : In x (slice l i j) -> In x l.
Proof.
  unfold slice. intros H. apply list_elem_of_In in H. apply list_elem_of_In.
  eapply subseteq_drop, subseteq_take, H.
Qed.

Lemma concat_batches channel_id_list :
  concat (batches channel_id_list) = channel_id_list.
Proof.
  unfold batches, range0. rewrite concat_slices.
  apply firstn_all2. apply range0_covers.
Qed.

(** X8.  Every ID that enters enrichment was discovered: when listing the
    set yields its members, each ID of each batch is a truthy ID that some
    query returned; and when listing the set yields each member once, the
    batches together hold each member of the set exactly once. *)
Theorem enriched_ids_were_discovered (youtube : client) (queries : list string)
    (published_after : string) (w : world) (all_channel_ids : pyset) (w1 : world) :
  discover youtube queries published_after [] w = (Ok all_channel_ids, w1) ->
  ((forall x, In x (list_of_set all_channel_ids) -> In x all_channel_ids) ->
   forall batch x,
     In batch (batches (list_of_set all_channel_ids)) -> In x batch ->
     truthy x = true /\
     exists ids, In ids (search_results youtube queries published_after w) /\
                 In x ids) /\
  (Permutation (list_of_set all_channel_ids) all_channel_ids ->
   Permutation (concat (batches (list_of_set all_channel_ids))) all_channel_ids).
Proof.
  intros Hd. destruct (discover_update _ _ _ _ _ _ _ Hd) as [Hup _]. split.
  - intros Hlist batch x Hb Hx.
    assert (Hin : In x (concat (search_results youtube queries published_after w))).
    { unfold batches in Hb. apply in_map_iff in Hb as (i & <- & _).
      apply in_slice, Hlist in Hx.
      destruct (set_update_elements _ _ _ Hup x Hx) as [[] | Hin]. exact Hin. }
    apply in_concat in Hin as (ids & Hids & Hxin). split; [| eauto].
    pose proof (search_results_truthy youtube queries published_after w) as Ht.
    rewrite List.Forall_forall in Ht. specialize (Ht ids Hids).
    rewrite List.Forall_forall in Ht. apply Ht, Hxin.
  - intros Hperm. rewrite concat_batches. exact Hperm.
Qed.

(** ** Further properties: the filter and the file *)

Lemma young_monotone max1 max2 r :
  F64.leb max1 max2 = true -> young max1 r = true -> young max2 r = true.
Proof. unfold young. intros Hle Hr. eapply leb_trans; eassumption. Qed.

(** X9.  The filter is monotone in the threshold: a row kept under a
    threshold is kept under every larger one, so raising [max_age_days]
    never loses a row. *)
Theorem larger_threshold_keeps_more (df : list frame_row) (max1 max2 : float) :
  F64.leb max1 max2 = true ->
  (forall r, In r (df_new df max1) -> In r (df_new df max2)) /\
  (length (df_new df max1) <= length (df_new df max2))%nat.
Proof.
  intros Hle. split.
  - intros r. rewrite !df_new_In. intros [Hin Hy].
    split; [exact Hin | eapply young_monotone; eassumption].
  - unfold df_new. induction df as [| r l IH]; simpl; [lia |].
    destruct (young max1 r) eqn:H1.
    + rewrite (young_monotone _ _ _ Hle H1). simpl. lia.
    + destruct (young max2 r); simpl; lia.
Qed.

(** X10.  The written rows are the qualifying input records in input order:
    nothing is sorted, merged or deduplicated, so a record that occurs twice
    in the input is written twice; the line printed at the end reports the
    number of rows written. *)
Theorem written_rows_follow_input (data : list channel) (max_age_days : float)
    (w : world) (f : string) (w' : world) :
  filter_and_save_channels data max_age_days w = (Ok f, w') ->
  f <> "" ->
  exists df t,
    frame data = Ok df /\
    sublist (map record (df_new df max_age_days)) data /\
    files w' !! f = Some t /\
    map (fun row => row !! 0%nat) (body t)
    = map (fun r => Some (CObj (channel_id (record r)))) (df_new df max_age_days) /\
    (length (body t) <= length data)%nat /\
    stdout w' = stdout w ++ [Saved (length (body t)) f].
Proof.
  intros Hrun Hf.
  apply filter_and_save_channels_returns in Hrun
    as [(_ & -> & _) | (_ & df & columns & Hframe & _ & [(_ & -> & _) | (_ & -> & ->)])];
    try contradiction.
  destruct (saved_file (df_new df max_age_days) columns w)
    as (t & Hfiles & _ & Hlen & Hkeys & _ & Hout & _).
  pose proof (survivors_sublist _ _ max_age_days Hframe) as Hsub.
  exists df, t. split; [exact Hframe |]. split; [exact Hsub |].
  split; [rewrite Hfiles; apply lookup_insert_eq |]. split; [| split].
  - change (fun row : list cell => row !! 0%nat) with (fun row => fst (key_cells row)).
    rewrite <- (List.map_map key_cells fst), Hkeys, List.map_map. reflexivity.
  - rewrite Hlen, <- (length_map record). apply sublist_length, Hsub.
  - rewrite Hout, Hlen. reflexivity.
Qed.


(** X12.  The filter has no lower bound: a record for which pandas gives a
    difference of at most zero seconds, its retrieval being no later than
    its creation, has an age of at most zero and is kept under every
    non-negative threshold. *)
Theorem no_lower_age_bound (data : list channel) (max_age_days : float)
    (published retrieved : datetimes) (seconds : list float)
    (i : nat) (c : channel) (s : float) :
  data !! i = Some c ->
  seconds !! i = Some s ->
  F64.leb s F64.zero = true ->
  F64.leb F64.zero max_age_days = true ->
  let df := rows_of data published retrieved seconds in
  exists r,
    df !! i = Some r /\ record r = c /\
    F64.leb (channel_age_days r) F64.zero = true /\
    In r (df_new df max_age_days).
Proof.
  intros Hc Hs Hle Hmax df.
  pose proof (rows_of_lookup data published retrieved seconds i c Hc) as Hrow.
  rewrite Hs in Hrow. simpl in Hrow.
  eexists. split; [exact Hrow |]. split; [reflexivity |].
  pose proof (age_days_nonpos s Hle) as Hage.
  split; [exact Hage |].
  apply df_new_In. split.
  - apply list_elem_of_In, list_elem_of_lookup. exists i. exact Hrow.
  - unfold young. simpl. eapply leb_trans; eassumption.
Qed.

(** X13.  A second run on the same date replaces the file of the first: when
    both runs write and the clock shows the same date, both return the same
    name, and the directory afterwards is the one before the first run with
    that single file, which holds a row per survivor of the second run. *)
Theorem same_day_rerun_overwrites (data1 data2 : list channel) (max1 max2 : float)
    (w : world) (f1 : string) (w1 w1' : world) (f2 : string) (w2 : world) :
  filter_and_save_channels data1 max1 w = (Ok f1, w1) ->
  f1 <> "" ->
  files w1' = files w1 ->
  strftime_Ymd (clock (ticks w1')) = strftime_Ymd (clock (ticks w)) ->
  filter_and_save_channels data2 max2 w1' = (Ok f2, w2) ->
  f2 <> "" ->
  f2 = f1 /\
  (exists df2 t2,
     frame data2 = Ok df2 /\
     files w2 = <[f1 := t2]> (files w) /\
     header t2 = frame_columns /\
     length (body t2) = length (df_new df2 max2)) /\
  dom (files w2) = dom (files w1).
Proof.
  intros Hrun1 Hf1 Hfiles Hdate Hrun2 Hf2.
  apply filter_and_save_channels_returns in Hrun1
    as [(_ & -> & _) | (_ & df1 & c1 & _ & _ & [(_ & -> & _) | (_ & -> & ->)])];
    try contradiction.
  apply filter_and_save_channels_returns in Hrun2
    as [(_ & -> & _) | (_ & df2 & c2 & Hframe2 & _ & [(_ & -> & _) | (_ & -> & ->)])];
    try contradiction.
  destruct (saved_file (df_new df1 max1) c1 w) as (t1 & Hw1 & _).
  destruct (saved_file (df_new df2 max2) c2 w1') as (t2 & Hw2 & Hheader & Hlen & _).
  assert (Hname : filename_on (clock (ticks w1')) = filename_on (clock (ticks w)))
    by (unfold filename_on; rewrite Hdate; reflexivity).
  rewrite Hw1 in Hfiles. rewrite Hw2, Hfiles, Hname, insert_insert_eq.
  split; [reflexivity |]. split.
  - exists df2, t2. auto.
  - rewrite Hw1, !dom_insert_L. reflexivity.
Qed.

(** X14.  The value returned tells what happened: it is the empty string
    exactly when the input was empty or no row of the frame survived, and
    then the directory is unchanged; otherwise it is the name of the one
    file written, every other file is as before.  The function never issues
    a remote call. *)
Theorem returned_name_is_the_written_file (data : list channel) (max_age_days : float)
    (w : world) (f : string) (w' : world) :
  filter_and_save_channels data max_age_days w = (Ok f, w') ->
  (f = "" <->
   data = [] \/ exists df, frame data = Ok df /\ df_new df max_age_days = []) /\
  (f = "" -> files w' = files w) /\
  (f <> "" ->
   is_Some (files w' !! f) /\
   forall g, g <> f -> files w' !! g = files w !! g) /\
  calls w' = calls w.
Proof.
  intros Hrun.
  apply filter_and_save_channels_returns in Hrun
    as [(-> & -> & ->)
       | (Hdata & df & columns & Hframe & _ & [(Hnone & -> & ->) | (Hne & -> & ->)])].
  - simpl. repeat split; auto; contradiction.
  - simpl. repeat split; eauto; contradiction.
  - destruct (saved_file (df_new df max_age_days) columns w)
      as (t & Hfiles & _ & _ & _ & _ & _ & Hcalls & _).
    pose proof (filename_on_not_empty (clock (ticks w))) as Hname.
    split; [split; [contradiction |] |].
    { intros [-> | (df' & Hframe' & Hnone)]; [contradiction |].
      rewrite Hframe in Hframe'. injection Hframe' as <-. contradiction. }
    split; [contradiction |]. split; [| exact Hcalls].
    intros _. rewrite Hfiles. split.
    + rewrite lookup_insert_eq. eauto.
    + intros g Hg. apply lookup_insert_ne. auto.
Qed.

(** X15.  The function raises only in pandas, and before anything is
    printed or written: when the frame cannot be built, or when the
    conversion of a count column of the survivors raises, as it does for a
    count that reads as infinite.  The conversion looks at survivors only:
    two inputs with the same surviving rows end in the same way, so a bad
    count in a record that is filtered out does no harm. *)
Theorem uncastable_survivor_raises (data : list channel) (max_age_days : float)
    (w : world) :
  (forall e w',
     filter_and_save_channels data max_age_days w = (Raise e, w') ->
     w' = w /\ data <> [] /\
     (frame data = Raise e \/
      exists df, frame data = Ok df /\ int_columns (df_new df max_age_days) = Raise e)) /\
  (forall df e,
     data <> [] -> frame data = Ok df ->
     int_columns (df_new df max_age_days) = Raise e ->
     filter_and_save_channels data max_age_days w = (Raise e, w)) /\
  (forall df xs,
     data <> [] -> frame data = Ok df ->
     to_numeric (map (fun r => subscriber_count (record r)) (df_new df max_age_days))
     = Returns xs ->
     In Infinite xs ->
     filter_and_save_channels data max_age_days w = (Raise IntCastingNaNError, w)) /\
  (forall data' df df',
     data <> [] -> data' <> [] ->
     frame data = Ok df -> frame data' = Ok df' ->
     df_new df' max_age_days = df_new df max_age_days ->
     filter_and_save_channels data' max_age_days w
     = filter_and_save_channels data max_age_days w).
Proof.
  assert (Hstage : forall df e,
     data <> [] -> frame data = Ok df ->
     int_columns (df_new df max_age_days) = Raise e ->
     filter_and_save_channels data max_age_days w = (Raise e, w)).
  { intros df e Hdata Hframe Hc.
    rewrite filter_and_save_channels_stages by exact Hdata.
    unfold filter_outcome. rewrite Hframe, Hc. reflexivity. }
  split; [intros e w'; apply filter_and_save_channels_raises |].
  split; [exact Hstage |]. split.
  - intros df xs Hdata Hframe Hxs Hinf. apply (Hstage df _ Hdata Hframe).
    unfold int_columns. rewrite (to_int64_returns _ _ Hxs).
    rewrite (cast_filled_infinite _ Hinf). reflexivity.
  - intros data' df df' Hdata Hdata' Hframe Hframe' Hsame.
    rewrite !filter_and_save_channels_stages by assumption.
    unfold filter_outcome. rewrite Hframe, Hframe', Hsame. reflexivity.
Qed.


(** X21.  When the input is empty, or the frame is built and none of its
    rows passes the filter, the function returns the empty string without
    raising, creates no file, issues no call, does not read the clock and
    prints that nothing qualified; a run whose collection produced these
    records completes normally.  (Assumption on pandas: the conversion of an
    empty column is empty.) *)
Theorem no_survivors_no_file (data : list channel) (max_age_days : float) (w : world) :
  data = [] \/
  (to_numeric [] = Returns [] /\
   exists df, frame data = Ok df /\ df_new df max_age_days = []) ->
  exists w',
    filter_and_save_channels data max_age_days w = (Ok "", w') /\
    files w' = files w /\
    calls w' = calls w /\
    ticks w' = ticks w /\
    stdout w' = stdout w ++ [match data with
                             | [] => NoChannelData
                             | _ => NoChannelsYounger max_age_days
                             end] /\
    (forall youtube queries window_hours w0,
       collect_new_channels youtube queries window_hours w0 = (Ok data, w) ->
       run_pipeline youtube queries window_hours max_age_days w0 = (Ok tt, w')).
Proof.
  intros Hnone.
  assert (Hrun : filter_and_save_channels data max_age_days w
                 = (Ok "", printed (match data with
                                    | [] => NoChannelData
                                    | _ => NoChannelsYounger max_age_days
                                    end) w)).
  { destruct data as [| c data]; [reflexivity |].
    destruct Hnone as [Hnone | (Hempty & df & Hframe & Hdf)]; [discriminate |].
    apply (filter_and_save_channels_none _ _ _ df ([], [], []));
      [discriminate | exact Hframe | | exact Hdf].
    rewrite Hdf. apply int_columns_returns. simpl. unfold to_int64.
    rewrite Hempty. auto. }
  eexists. split; [exact Hrun |]. simpl.
  repeat split; try reflexivity.
  intros youtube queries window_hours w0 Hc.
  eapply run_pipeline_ok; eassumption.
Qed.

(** ** Further properties: the run *)

(** The discovery loop that raises has searched a prefix of the queries. *)
Lemma discover_raise_effect youtube queries published_after : forall s w e w',
  discover youtube queries published_after s w = (Raise e, w') ->
  exists k,
    (0 < k <= length queries)%nat /\
    calls w' = calls w ++ map (fun q => search_request q published_after)
                            (firstn k queries) /\
    files w' = files w /\ ticks w' = ticks w.
Proof.
  induction queries as [| query rest IH]; intros s w e w'.
  - simpl. unfold ret. discriminate.
  - intros H.
    destruct (search_new_videos_ok youtube query published_after w) as (ids & w1 & Hs).
    rewrite (discover_step _ _ _ _ _ _ _ _ Hs) in H.
    destruct (search_new_videos_effect _ _ _ _ _ _ Hs) as (m1 & Hw1 & _).
    destruct (set_update s ids) as [s1 | e1].
    + destruct (IH _ _ _ _ H) as (k & Hk & Hcalls & Hfiles & Hticks).
      exists (S k). split; [simpl; lia |]. rewrite Hcalls, Hfiles, Hticks, Hw1. simpl.
      rewrite <- app_assoc. auto.
    + injection H as _ <-. exists 1%nat. split; [simpl; lia |]. rewrite Hw1. simpl.
      destruct rest; auto.
Qed.

Lemma aborted_collection_frame youtube queries window_hours w e w' :
  collect_new_channels youtube queries window_hours w = (Raise e, w') ->
  files w' = files w.
Proof.
  intros H. unfold collect_new_channels in H.
  apply bind_raise in H as [H | (now & w0 & Hnow & H)]; [discriminate |].
  injection Hnow as <- <-.
  apply bind_raise in H as [H | (ids & w1 & _ & H)].
  - destruct (discover_raise_effect _ _ _ _ _ _ _ H) as (k & _ & _ & Hfiles & _).
    exact Hfiles.
  - destruct (enrich_ok youtube (list_of_set ids)
                (range0 (length (list_of_set ids)) 50) [] w1) as (d & w2 & He).
    congruence.
Qed.

(** X17.  A collection that raises has searched only: it made the searches
    of a non-empty prefix of the queries, in order, and stopped there; the
    later queries were never searched, no detail lookup was made, the clock
    was read once and no file was touched. *)
Theorem aborted_collection_only_searched (youtube : client) (queries : list string)
    (window_hours : Z) (w : world) (e : exn) (w' : world) :
  collect_new_channels youtube queries window_hours w = (Raise e, w') ->
  let published_after :=
    (isoformat (clock (ticks w) - window_hours * hour) ++ "Z")%string in
  e = TypeError /\
  exists k,
    (0 < k <= length queries)%nat /\
    calls w' = calls w ++ map (fun q => search_request q published_after)
                            (firstn k queries) /\
    files w' = files w /\
    ticks w' = S (ticks w).
Proof.
  intros H published_after.
  split; [eapply collect_new_channels_raises; eassumption |].
  unfold collect_new_channels in H.
  apply bind_raise in H as [H | (now & w0 & Hnow & H)]; [discriminate |].
  injection Hnow as <- <-. fold published_after in H.
  apply bind_raise in H as [H | (ids & w1 & _ & H)].
  - destruct (discover_raise_effect _ _ _ _ _ _ _ H) as (k & Hk & Hcalls & Hfiles & Hticks).
    exists k. auto.
  - destruct (enrich_ok youtube (list_of_set ids)
                (range0 (length (list_of_set ids)) 50) [] w1) as (d & w2 & He).
    congruence.
Qed.

(** A collection that returns has touched no file. *)
Lemma collect_new_channels_files youtube queries window_hours w data w' :
  collect_new_channels youtube queries window_hours w = (Ok data, w') ->
  files w' = files w.
Proof.
  intros H. unfold collect_new_channels in H.
  apply bind_ok in H as (now & w0 & Hnow & H). injection Hnow as <- <-.
  apply bind_ok in H as (ids & w1 & Hd & H).
  destruct (discover_effect _ _ _ _ _ _ _ Hd) as (m1 & -> & _).
  destruct (enrich_effect _ _ _ _ _ _ _ H) as (more & reqs & m2 & _ & -> & _).
  reflexivity.
Qed.

(** X18.  A run of [main] changes at most one file: either the directory is
    as it was, or the run returned normally and the directory differs by the
    one dated file, which has the header of the frame and at least one row.
    A run that raises, for the missing credential or later, leaves the
    directory as it was. *)
Theorem main_changes_one_file_at_most (w : world) (r : outcome unit) (w' : world) :
  main w = (r, w') ->
  (files w' = files w \/
   r = Ok tt /\
   exists now t,
     files w' = <[filename_on now := t]> (files w) /\
     header t = frame_columns /\ body t <> []) /\
  (forall e, r = Raise e -> files w' = files w).
Proof.
  intros Hmain.
  assert (Hpipe : forall youtube queries window_hours max_age_days,
            run_pipeline youtube queries window_hours max_age_days w = (r, w') ->
            (files w' = files w \/
             r = Ok tt /\
             exists now t,
               files w' = <[filename_on now := t]> (files w) /\
               header t = frame_columns /\ body t <> []) /\
            (forall e, r = Raise e -> files w' = files w)).
  { intros youtube queries window_hours max_age_days Hrun.
    unfold run_pipeline in Hrun.
    destruct (collect_new_channels youtube queries window_hours w)
      as [[data | e] w1] eqn:Hc.
    - pose proof (collect_new_channels_files _ _ _ _ _ _ Hc) as Hf1.
      unfold bind in Hrun. rewrite Hc in Hrun.
      destruct (filter_and_save_channels data max_age_days w1)
        as [[f | e] w2] eqn:Hf; injection Hrun as <- <-.
      + apply filter_and_save_channels_returns in Hf
          as [(_ & _ & ->) | (_ & df & columns & _ & _ & [(_ & _ & ->) | (Hne & _ & ->)])].
        * split; [left; exact Hf1 | discriminate].
        * split; [left; exact Hf1 | discriminate].
        * split; [| discriminate]. right. split; [reflexivity |].
          destruct (saved_file (df_new df max_age_days) columns w1)
            as (t & Hfiles & Hheader & Hlen & _).
          exists (clock (ticks w1)), t. rewrite Hfiles, Hf1.
          split; [reflexivity |]. split; [exact Hheader |].
          intros Hbody. rewrite Hbody in Hlen.
          destruct (df_new df max_age_days); [contradiction | discriminate Hlen].
      + apply filter_and_save_channels_raises in Hf as (-> & _).
        split; [left; exact Hf1 | intros _ _; exact Hf1].
    - unfold bind in Hrun. rewrite Hc in Hrun. injection Hrun as <- <-.
      pose proof (aborted_collection_frame _ _ _ _ _ _ Hc) as Hfiles.
      split; [left; exact Hfiles | intros _ _; exact Hfiles]. }
  unfold main in Hmain.
  destruct (unset (getenv "YOUTUBE_API_KEY")).
  - injection Hmain as <- <-. split; [left; reflexivity | reflexivity].
  - eapply Hpipe. exact Hmain.
Qed.

End Program.

(** ** The theorems at concrete inputs *)

(** A single record whose creation date is missing: the column of creation
    dates has no time zone, the column of retrieval stamps has one, and the
    subtraction raises [TypeError]; so does a run of [main] against a
    service that knows this channel only. *)
Lemma unparseable_dates_raise_witness :
  filter_and_save_channels Sample.clock Sample.strftime_Ymd Sample.to_datetime
    Sample.timedelta_seconds Sample.to_numeric Sample.int64_wrap
    [Sample.undated] thirty Sample.start
  = (Raise TypeError, Sample.start) /\
  fst (main Sample.clock Sample.isoformat Sample.strftime_Ymd Sample.to_datetime
         Sample.timedelta_seconds Sample.to_numeric Sample.int64_wrap
         Sample.list_of_set (fun _ => Probe.undated_only) Sample.no_env
         Sample.key_env Sample.start)
  = Raise TypeError.
Proof.
  split.
  - refine (proj1 (unparseable_dates_raise Sample.clock Sample.isoformat
                     Sample.strftime_Ymd Sample.to_datetime Sample.timedelta_seconds
                     Sample.to_numeric Sample.int64_wrap Sample.list_of_set
                     [Sample.undated] thirty Sample.start
                     (Datetimes false [None])
                     (Datetimes true [Some (Sample.clock 0)])
                     PdTypeError _ _ _ _)).
    + discriminate.
    + vm_compute. reflexivity.
    + vm_compute. reflexivity.
    + vm_compute. reflexivity.
  - vm_compute. reflexivity.
Defined.

Lemma missing_credential_is_fatal_witness :
  main Sample.clock Sample.isoformat Sample.strftime_Ymd Sample.to_datetime
    Sample.timedelta_seconds Sample.to_numeric Sample.int64_wrap
    Sample.list_of_set Sample.build Sample.no_env Sample.no_env
    Sample.start = (Raise missing_key, Sample.start) /\
  forall msg,
    fst (main Sample.clock Sample.isoformat Sample.strftime_Ymd Sample.to_datetime
           Sample.timedelta_seconds Sample.to_numeric Sample.int64_wrap
           Sample.list_of_set Sample.build Sample.no_env
           Sample.key_env Sample.start) <> Raise (RuntimeError msg).
Proof.
  split.
  - apply (missing_credential_is_fatal Sample.clock Sample.isoformat
             Sample.strftime_Ymd Sample.to_datetime Sample.timedelta_seconds
             Sample.to_numeric Sample.int64_wrap
             Sample.list_of_set Sample.build Sample.no_env Sample.no_env
             Sample.start).
    left. reflexivity.
  - apply (proj2 (missing_credential_is_fatal Sample.clock Sample.isoformat
             Sample.strftime_Ymd Sample.to_datetime Sample.timedelta_seconds
             Sample.to_numeric Sample.int64_wrap
             Sample.list_of_set Sample.build Sample.no_env Sample.key_env
             Sample.start) "AIza-sample").
    + reflexivity.
    + discriminate.
Defined.


(** The first of the seven searches finds 120 channels: the enrichment
    issues three [channels.list] requests after the seven searches. *)
Lemma enrichment_batches_witness :
  exists data w' requests,
    collect_new_channels Sample.clock Sample.isoformat Sample.list_of_set
      Probe.crowd search_queries 24 Sample.start = (Ok data, w') /\
    calls w'
    = map (fun q => search_request q "2024-03-04T12:00:00.250000Z") search_queries
      ++ requests /\
    length requests = 3%nat.
Proof.
  edestruct (enrichment_batches Sample.clock Sample.isoformat Sample.list_of_set
               Probe.crowd search_queries 24 Sample.start)
    as (_ & _ & _ & _ & _ & _ & Hcalls); [vm_compute; reflexivity |].
  destruct Hcalls as (data & w' & requests & Hrun & Hreqs & _ & _ & Hthree).
  { repeat (constructor; [eexists; reflexivity |]). constructor. }
  exists data, w', requests. split; [exact Hrun |]. split; [exact Hreqs |].
  apply Hthree. reflexivity.
Defined.

Lemma dedup_size_bound_witness :
  exists ids w',
    discover Sample.youtube search_queries "2024-03-04T12:00:00Z" [] Sample.start
    = (Ok ids, w') /\
    ids = [JStr "UC_alpha"; JStr "UC_beta"] /\
    map length (search_results Sample.youtube search_queries
                  "2024-03-04T12:00:00Z" Sample.start)
    = [2; 1; 0; 0; 0; 0; 0]%nat /\
    (length ids <= 3)%nat.
Proof.
  eexists _, _. split; [vm_compute; reflexivity |]. split; [reflexivity |].
  split; [vm_compute; reflexivity |].
  refine (proj1 (proj2 (dedup_size_bound Sample.youtube search_queries
                          "2024-03-04T12:00:00Z" Sample.start _ _ _))).
  vm_compute. reflexivity.
Defined.


(** C8, as stated, fails: the run of [main] against the scripted service
    keeps one record, and the file it writes has ten columns, among them the
    two parsed timestamps, which are neither fields of the record nor the
    age column. *)
Lemma written_columns_exceed_record_fields :
  let run :=
    main Sample.clock Sample.isoformat Sample.strftime_Ymd Sample.to_datetime
      Sample.timedelta_seconds Sample.to_numeric Sample.int64_wrap
      Sample.list_of_set Sample.build Sample.no_env
      Sample.key_env Sample.start in
  fst run = Ok tt /\
  exists t,
    files (snd run) !! "new_youtube_channels_2024-03-05.csv" = Some t /\
    length (body t) = 1%nat /\
    length (header t) = 10%nat /\
    In "published_at_dt" (header t) /\
    In "data_retrieved_at_dt" (header t) /\
    ~ In "published_at_dt" (record_fields ++ ["channel_age_days"]) /\
    ~ Permutation (header t) (record_fields ++ ["channel_age_days"]).
Proof.
  split; [vm_compute; reflexivity |].
  eexists. split; [vm_compute; reflexivity |]. simpl.
  split; [reflexivity |]. split; [reflexivity |].
  split; [do 7 right; left; reflexivity |].
  split; [do 8 right; left; reflexivity |].
  split.
  - intros H. repeat (destruct H as [H | H]; [discriminate H |]). exact H.
  - intros H. apply Permutation_length in H. discriminate H.
Qed.

Lemma written_file_layout_witness :
  exists f w',
    filter_and_save_channels Sample.clock Sample.strftime_Ymd Sample.to_datetime
      Sample.timedelta_seconds Sample.to_numeric Sample.int64_wrap
      [Sample.exactly_30; Sample.over_30] thirty Sample.start
    = (Ok f, w') /\
    f = "new_youtube_channels_2024-03-05.csv" /\
    exists t, files w' = <[f := t]> (files Sample.start) /\
              header t = frame_columns /\ length (body t) = 1%nat.
Proof.
  destruct (filter_and_save_channels Sample.clock Sample.strftime_Ymd
              Sample.to_datetime Sample.timedelta_seconds Sample.to_numeric
              Sample.int64_wrap [Sample.exactly_30; Sample.over_30] thirty
              Sample.start) as [[f | e] w'] eqn:Hrun;
    [| vm_compute in Hrun; discriminate Hrun].
  edestruct (written_file_layout Sample.clock Sample.strftime_Ymd Sample.to_datetime
               Sample.timedelta_seconds Sample.to_numeric Sample.int64_wrap
               [Sample.exactly_30; Sample.over_30] thirty Sample.start)
    as (Hf & t & Hfiles & _ & Hheader & Hlen & _);
    [vm_compute; reflexivity | vm_compute; discriminate | exact Hrun |].
  exists f, w'. split; [reflexivity |].
  split; [rewrite Hf; vm_compute; reflexivity |].
  exists t. split; [exact Hfiles |]. split; [exact Hheader |].
  rewrite Hlen. vm_compute. reflexivity.
Defined.

(** C3, as stated, fails: of the two items the scripted detail lookup
    returns, [Sample.beta] lacks its creation date.  The default fills the
    field and a record is built for it, but pandas has no age for its row
    and no threshold lets it pass the filter: the written file holds the
    row of [Sample.alpha] alone. *)
Lemma missing_creation_date_excludes_record :
  exists a b w' ra rb,
    get_channel_details Sample.clock Sample.isoformat Sample.youtube
      [JStr "UC_alpha"; JStr "UC_beta"] Sample.start = (Ok [a; b], w') /\
    channel_id b = JStr "UC_beta" /\
    published_at b = JStr "" /\
    frame Sample.to_datetime Sample.timedelta_seconds [a; b] = Ok [ra; rb] /\
    record ra = a /\ record rb = b /\
    (forall max_age_days, ~ In rb (df_new [ra; rb] max_age_days)) /\
    In ra (df_new [ra; rb] thirty) /\
    exists f w'' t,
      filter_and_save_channels Sample.clock Sample.strftime_Ymd Sample.to_datetime
        Sample.timedelta_seconds Sample.to_numeric Sample.int64_wrap
        [a; b] thirty w' = (Ok f, w'') /\
      files w'' !! f = Some t /\
      map (fun row => row !! 0%nat) (body t) = [Some (CObj (JStr "UC_alpha"))].
Proof.
  eexists _, _, _, _, _. split; [vm_compute; reflexivity |].
  split; [reflexivity |]. split; [reflexivity |].
  split; [vm_compute; reflexivity |].
  split; [reflexivity |]. split; [reflexivity |]. split; [| split].
  - intros max_age_days H. apply df_new_In in H as [_ H].
    unfold young in H. simpl in H. discriminate H.
  - vm_compute. left. reflexivity.
  - eexists _, _, _. split; [vm_compute; reflexivity |].
    split; [vm_compute; reflexivity |]. reflexivity.
Qed.

Lemma defaults_and_eligibility_witness :
  exists c w',
    channel_of_item Sample.clock Sample.isoformat Sample.alpha Sample.start
    = (Ok c, w') /\
    view_count c = JNum 0 /\
    channel_title c = JStr "Alpha".
Proof.
  destruct (defaults_and_eligibility Sample.clock Sample.isoformat Sample.to_datetime
              Sample.timedelta_seconds
              [("id", JStr "UC_alpha");
               ("snippet", JDict [("title", JStr "Alpha");
                                  ("publishedAt", JStr "2024-03-01T00:00:00Z")]);
               ("statistics", JDict [("subscriberCount", JStr "12");
                                     ("videoCount", JStr "n/a")])]
              [("title", JStr "Alpha"); ("publishedAt", JStr "2024-03-01T00:00:00Z")]
              [("subscriberCount", JStr "12"); ("videoCount", JStr "n/a")]
              Sample.start eq_refl eq_refl)
    as (c & w' & Hrun & _ & Ht & _ & _ & _ & Hv & _).
  exists c, w'. split; [exact Hrun |]. split; [exact Hv | exact Ht].
Defined.


(** ** Behaviour outside the properties, for the record *)

(** An item whose [snippet] is [null] ends the loop of
    [get_channel_details]: the records built before it are returned, the
    items after it are not looked at, and the error is printed. *)
Example malformed_item_ends_batch :
  get_channel_details Sample.clock Sample.isoformat
    (fun _ _ => Ok (JDict [("items",
        JList [Sample.alpha; JDict [("snippet", JNull)]; Sample.beta])]))
    [JStr "UC_alpha"; JStr "UC_x"; JStr "UC_beta"] Sample.start
  = (Ok [Channel (JStr "UC_alpha") (JStr "Alpha") (JStr "2024-03-01T00:00:00Z")
           (JStr "12") (JStr "n/a") (JNum 0) (JStr "2024-03-05T12:00:00.250000Z")],
     World 1 [ChannelsList "UC_alpha,UC_x,UC_beta" "snippet,statistics"]
       [DetailsUnexpectedError AttributeError] ∅).
Proof. vm_compute. reflexivity. Qed.

(** A channel ID that is a list cannot enter the set: the collection raises. *)
Example unhashable_id_aborts :
  fst (collect_new_channels Sample.clock Sample.isoformat Sample.list_of_set
         (fun _ _ => Ok (JDict [("items",
            JList [JDict [("snippet", JDict [("channelId", JList [JStr "UC"])])]])]))
         ["first vlog"] 24 Sample.start)
  = Raise TypeError.
Proof. vm_compute. reflexivity. Qed.

(** A count that reads as infinite makes the conversion raise; no file is
    written. *)
Example infinite_count_raises :
  filter_and_save_channels Sample.clock Sample.strftime_Ymd Sample.to_datetime
    Sample.timedelta_seconds Sample.to_numeric Sample.int64_wrap
    [Probe.boundless] thirty Sample.start
  = (Raise IntCastingNaNError, Sample.start).
Proof. vm_compute. reflexivity. Qed.

(** A count beyond the range of [int64] is written as the least [int64]; a
    negative count is written as it is. *)
Example out_of_range_count_wraps :
  exists f w' row,
    filter_and_save_channels Sample.clock Sample.strftime_Ymd Sample.to_datetime
      Sample.timedelta_seconds Sample.to_numeric Sample.int64_wrap
      [Probe.crowded] thirty Sample.start = (Ok f, w') /\
    body <$> files w' !! f = Some [row] /\
    count_cells row
    = [Some (CInt (-9223372036854775808)); Some (CInt (-5)); Some (CInt 0)].
Proof.
  eexists _, _, _. split; [vm_compute; reflexivity |].
  split; [vm_compute; reflexivity |]. reflexivity.
Qed.

(** The age of a channel retrieved eight hours after its creation is the
    float64 nearest to a third: it is kept at that threshold. *)
Example eight_hours_at_a_third :
  age_days (Sample.total_seconds (8 * 3600 * Sample.second))
  = F64.div (F64.of_Z 1) (F64.of_Z 3) /\
  young (F64.div (F64.of_Z 1) (F64.of_Z 3))
    (FrameRow Sample.undated None None
       (age_days (Sample.total_seconds (8 * 3600 * Sample.second))))
  = true.
Proof. vm_compute. split; reflexivity. Qed.

(** The stand-ins for [isoformat] and the parser agree on the sample clock;
    a stamp in another format than the first of its column, and the empty
    string, are [NaT]. *)
Example sample_stamp_round_trip :
  Sample.isoformat (Sample.clock 1) = "2024-03-05T12:00:00.251000" /\
  Sample.to_datetime
    [JStr "2024-03-05T12:00:00.251000Z"; JStr ""; JStr "2024-03-05T12:00:00Z"]
  = Returns (Datetimes true [Some (Sample.clock 1); None; None]) /\
  Sample.to_datetime [JStr ""] = Returns (Datetimes false [None]).
Proof. vm_compute. repeat split. Qed.

(** ** The further properties at concrete inputs *)

Lemma search_new_videos_returns_hits_witness :
  search_new_videos Sample.youtube "new channel" "2024-03-04T12:00:00.250000Z"
    Sample.start
  = (Ok [JStr "UC_beta"],
     World 0 [search_request "new channel" "2024-03-04T12:00:00.250000Z"] [] ∅).
Proof.
  apply (search_new_videos_returns_hits Sample.youtube "new channel"
           "2024-03-04T12:00:00.250000Z" Sample.start
           (JDict [("items", JList [Sample.found "UC_beta"; JDict []])])
           [Sample.found "UC_beta"; JDict []]).
  - reflexivity.
  - reflexivity.
  - repeat constructor; eexists; reflexivity.
Defined.

Lemma search_new_videos_invariants_witness :
  exists ids w1,
    search_new_videos Sample.youtube "hello everyone" "2024-03-04T12:00:00.250000Z"
      Sample.start = (Ok ids, w1) /\
    ids = [] /\ length (stdout w1) = 1%nat.
Proof.
  destruct (search_new_videos_invariants Sample.youtube "hello everyone"
              "2024-03-04T12:00:00.250000Z" Sample.start)
    as (ids & w1 & msgs & Hrun & _ & Hw1 & _ & _ & Hfail).
  exists ids, w1. split; [exact Hrun |].
  split; [apply (Hfail (HttpError "quotaExceeded")); reflexivity |].
  vm_compute in Hrun. injection Hrun as _ <-. reflexivity.
Defined.

Lemma get_channel_details_fails_witness :
  get_channel_details Sample.clock Sample.isoformat Probe.no_details
    [JStr "UC_alpha"; JStr "UC_beta"] Sample.start
  = (Ok [],
     World 0 [details_request "UC_alpha,UC_beta"]
       [DetailsHttpError (HttpError "backendError")] ∅).
Proof.
  apply (get_channel_details_fails Sample.clock Sample.isoformat Probe.no_details
           [JStr "UC_alpha"; JStr "UC_beta"] "UC_alpha,UC_beta" Sample.start
           (HttpError "backendError")).
  - discriminate.
  - reflexivity.
  - reflexivity.
Defined.

Lemma get_channel_details_rejects_non_strings_witness :
  get_channel_details Sample.clock Sample.isoformat Sample.youtube
    [JStr "UC_alpha"; JNum 7] Sample.start
  = (Ok [], World 0 [] [DetailsUnexpectedError TypeError] ∅).
Proof.
  apply (get_channel_details_rejects_non_strings Sample.clock Sample.isoformat
           Sample.youtube [JStr "UC_alpha"; JNum 7] Sample.start).
  apply Exists_cons_tl, Exists_cons_hd. intros [s Hs]. discriminate Hs.
Defined.

Lemma get_channel_details_one_record_per_item_witness :
  exists data,
    get_channel_details Sample.clock Sample.isoformat Sample.youtube
      [JStr "UC_alpha"; JStr "UC_beta"] Sample.start
    = (Ok data, World 2 [details_request "UC_alpha,UC_beta"] [] ∅) /\
    length data = 2%nat.
Proof.
  destruct (get_channel_details_one_record_per_item Sample.clock Sample.isoformat
              Sample.youtube [JStr "UC_alpha"; JStr "UC_beta"] "UC_alpha,UC_beta"
              Sample.start (JDict [("items", JList [Sample.alpha; Sample.beta])])
              [Sample.alpha; Sample.beta])
    as (data & Hrun & Hlen & _).
  - discriminate.
  - reflexivity.
  - reflexivity.
  - reflexivity.
  - repeat constructor; eexists _, _, _; repeat split; reflexivity.
  - exists data. split; [exact Hrun | exact Hlen].
Defined.

Lemma unreadable_item_ends_the_batch_witness :
  exists data,
    get_channel_details Sample.clock Sample.isoformat Probe.one_broken
      [JStr "UC_alpha"; JStr "UC_x"; JStr "UC_beta"] Sample.start
    = (Ok data,
       World 1 [details_request "UC_alpha,UC_x,UC_beta"]
         [DetailsUnexpectedError AttributeError] ∅) /\
    length data = 1%nat.
Proof.
  destruct (unreadable_item_ends_the_batch Sample.clock Sample.isoformat
              Probe.one_broken [JStr "UC_alpha"; JStr "UC_x"; JStr "UC_beta"]
              "UC_alpha,UC_x,UC_beta" Sample.start
              (JDict [("items", JList [Sample.alpha; Probe.broken; Sample.beta])])
              [Sample.alpha] Probe.broken [Sample.beta])
    as (data & Hrun & Hlen & _).
  - discriminate.
  - reflexivity.
  - reflexivity.
  - reflexivity.
  - repeat constructor; eexists _, _, _; repeat split; reflexivity.
  - intros (di & ds & dst & Hitem & Hs & _). vm_compute in Hs. discriminate Hs.
  - exists data. split; [exact Hrun | exact Hlen].
Defined.

Lemma collect_new_channels_effect_witness :
  exists data w' reqs,
    collect_new_channels Sample.clock Sample.isoformat Sample.list_of_set
      Sample.youtube search_queries 24 Sample.start = (Ok data, w') /\
    calls w'
    = map (fun q => search_request q "2024-03-04T12:00:00.250000Z") search_queries
      ++ reqs /\
    (length reqs <= 1)%nat /\
    ticks w' = (1 + length data)%nat /\
    files w' = ∅.
Proof.
  destruct (collect_new_channels Sample.clock Sample.isoformat Sample.list_of_set
              Sample.youtube search_queries 24 Sample.start) as [[data | e] w'] eqn:Hrun;
    [| vm_compute in Hrun; discriminate Hrun].
  destruct (collect_new_channels_effect Sample.clock Sample.isoformat
              Sample.list_of_set Sample.youtube search_queries 24 Sample.start
              data w' Hrun) as (ids & reqs & msgs & Hw' & _ & Hreqs & _ & Hids).
  vm_compute in Hids. injection Hids as <-.
  exists data, w', reqs. split; [reflexivity |]. rewrite Hw'.
  split; [reflexivity |]. split; [exact Hreqs |]. split; reflexivity.
Defined.

Lemma enriched_ids_were_discovered_witness :
  truthy (JStr "UC_beta") = true /\
  exists ids,
    In ids (search_results Sample.youtube search_queries
              "2024-03-04T12:00:00.250000Z" Sample.start) /\
    In (JStr "UC_beta") ids.
Proof.
  apply (proj1 (enriched_ids_were_discovered Sample.list_of_set Sample.youtube
                  search_queries "2024-03-04T12:00:00.250000Z" Sample.start
                  [JStr "UC_alpha"; JStr "UC_beta"]
                  (snd (discover Sample.youtube search_queries
                          "2024-03-04T12:00:00.250000Z" [] Sample.start))
                  ltac:(vm_compute; reflexivity))
           (fun x Hx => Hx) [JStr "UC_alpha"; JStr "UC_beta"] (JStr "UC_beta")).
  - left. reflexivity.
  - right. left. reflexivity.
Defined.

Lemma larger_threshold_keeps_more_witness :
  (length (df_new Probe.two_rows thirty)
   <= length (df_new Probe.two_rows (F64.of_Z 31)))%nat.
Proof.
  apply (larger_threshold_keeps_more Probe.two_rows thirty (F64.of_Z 31)).
  vm_compute. reflexivity.
Defined.

Lemma written_rows_follow_input_witness :
  exists f w' t,
    filter_and_save_channels Sample.clock Sample.strftime_Ymd Sample.to_datetime
      Sample.timedelta_seconds Sample.to_numeric Sample.int64_wrap
      [Sample.over_30; Sample.exactly_30; Sample.exactly_30] thirty
      Sample.start = (Ok f, w') /\
    files w' !! f = Some t /\
    map (fun row => row !! 0%nat) (body t)
    = [Some (CObj (JStr "UC_exact")); Some (CObj (JStr "UC_exact"))] /\
    stdout w' = [Saved 2 f].
Proof.
  destruct (filter_and_save_channels Sample.clock Sample.strftime_Ymd
              Sample.to_datetime Sample.timedelta_seconds Sample.to_numeric
              Sample.int64_wrap
              [Sample.over_30; Sample.exactly_30; Sample.exactly_30] thirty
              Sample.start) as [[f | e] w'] eqn:Hrun;
    [| vm_compute in Hrun; discriminate Hrun].
  destruct (written_rows_follow_input Sample.clock Sample.strftime_Ymd
              Sample.to_datetime Sample.timedelta_seconds Sample.to_numeric
              Sample.int64_wrap
              [Sample.over_30; Sample.exactly_30; Sample.exactly_30] thirty
              Sample.start f w' Hrun)
    as (df & t & Hframe & _ & Hfile & Hids & _ & Hout).
  - vm_compute in Hrun. injection Hrun as <- _. discriminate.
  - vm_compute in Hframe. injection Hframe as <-.
    exists f, w', t. split; [reflexivity |]. split; [exact Hfile |].
    split; [rewrite Hids; vm_compute; reflexivity |].
    rewrite Hout. replace (length (body t)) with 2%nat; [reflexivity |].
    rewrite <- (length_map (fun row => row !! 0%nat)), Hids. vm_compute. reflexivity.
Defined.


(** A record retrieved half a day before its creation date is kept at the
    threshold zero. *)
Lemma no_lower_age_bound_witness :
  exists df r,
    frame Sample.to_datetime Sample.timedelta_seconds [Probe.future] = Ok df /\
    df !! 0%nat = Some r /\ record r = Probe.future /\
    In r (df_new df F64.zero).
Proof.
  destruct (no_lower_age_bound [Probe.future] F64.zero
              (Datetimes true [Some (Sample.noon + 12 * 3600 * Sample.second)])
              (Datetimes true [Some Sample.noon])
              [Sample.total_seconds (- (12 * 3600 * Sample.second))]
              0%nat Probe.future
              (Sample.total_seconds (- (12 * 3600 * Sample.second))))
    as (r & Hrow & Hrec & _ & Hkept).
  - reflexivity.
  - reflexivity.
  - vm_compute. reflexivity.
  - reflexivity.
  - eexists _, r. split; [| split; [exact Hrow | split; [exact Hrec | exact Hkept]]].
    vm_compute. reflexivity.
Defined.

Lemma same_day_rerun_overwrites_witness :
  exists f1 w1 f2 w2,
    filter_and_save_channels Sample.clock Sample.strftime_Ymd Sample.to_datetime
      Sample.timedelta_seconds Sample.to_numeric Sample.int64_wrap
      [Sample.exactly_30] thirty Sample.start = (Ok f1, w1) /\
    filter_and_save_channels Sample.clock Sample.strftime_Ymd Sample.to_datetime
      Sample.timedelta_seconds Sample.to_numeric Sample.int64_wrap
      [Sample.exactly_30; Sample.over_30] (F64.of_Z 31) w1 = (Ok f2, w2) /\
    f2 = f1 /\
    dom (files w2) = dom (files w1).
Proof.
  destruct (filter_and_save_channels Sample.clock Sample.strftime_Ymd
              Sample.to_datetime Sample.timedelta_seconds Sample.to_numeric
              Sample.int64_wrap [Sample.exactly_30] thirty
              Sample.start) as [[f1 | e] w1] eqn:Hrun1;
    [| vm_compute in Hrun1; discriminate Hrun1].
  destruct (filter_and_save_channels Sample.clock Sample.strftime_Ymd
              Sample.to_datetime Sample.timedelta_seconds Sample.to_numeric
              Sample.int64_wrap
              [Sample.exactly_30; Sample.over_30] (F64.of_Z 31) w1)
    as [[f2 | e] w2] eqn:Hrun2.
  2:{ exfalso. vm_compute in Hrun1. injection Hrun1 as _ <-.
      vm_compute in Hrun2. discriminate Hrun2. }
  destruct (same_day_rerun_overwrites Sample.clock Sample.strftime_Ymd
              Sample.to_datetime Sample.timedelta_seconds Sample.to_numeric
              Sample.int64_wrap [Sample.exactly_30]
              [Sample.exactly_30; Sample.over_30] thirty (F64.of_Z 31) Sample.start
              f1 w1 w1 f2 w2) as (Hname & _ & Hdom).
  - exact Hrun1.
  - vm_compute in Hrun1. injection Hrun1 as <- _. discriminate.
  - reflexivity.
  - vm_compute in Hrun1. injection Hrun1 as _ <-. vm_compute. reflexivity.
  - exact Hrun2.
  - vm_compute in Hrun1. injection Hrun1 as _ <-.
    vm_compute in Hrun2. injection Hrun2 as <- _. discriminate.
  - exists f1, w1, f2, w2. auto.
Defined.

Lemma returned_name_is_the_written_file_witness :
  exists f w',
    filter_and_save_channels Sample.clock Sample.strftime_Ymd Sample.to_datetime
      Sample.timedelta_seconds Sample.to_numeric Sample.int64_wrap
      [Sample.over_30] thirty Sample.start = (Ok f, w') /\
    f = "" /\ files w' = ∅.
Proof.
  destruct (filter_and_save_channels Sample.clock Sample.strftime_Ymd
              Sample.to_datetime Sample.timedelta_seconds Sample.to_numeric
              Sample.int64_wrap [Sample.over_30] thirty
              Sample.start) as [[f | e] w'] eqn:Hrun;
    [| vm_compute in Hrun; discriminate Hrun].
  destruct (returned_name_is_the_written_file Sample.clock Sample.strftime_Ymd
              Sample.to_datetime Sample.timedelta_seconds Sample.to_numeric
              Sample.int64_wrap [Sample.over_30] thirty
              Sample.start f w' Hrun) as (Hname & Hsame & _).
  assert (Hf : f = "").
  { apply Hname. right. eexists.
    split; [vm_compute; reflexivity | vm_compute; reflexivity]. }
  exists f, w'. split; [reflexivity |]. split; [exact Hf |]. apply Hsame, Hf.
Defined.

(** An infinite count of a survivor makes the function raise; the same
    count in a record that the filter drops does no harm. *)
Lemma uncastable_survivor_raises_witness :
  filter_and_save_channels Sample.clock Sample.strftime_Ymd Sample.to_datetime
    Sample.timedelta_seconds Sample.to_numeric Sample.int64_wrap
    [Probe.future; Probe.boundless] thirty Sample.start
  = (Raise IntCastingNaNError, Sample.start) /\
  filter_and_save_channels Sample.clock Sample.strftime_Ymd Sample.to_datetime
    Sample.timedelta_seconds Sample.to_numeric Sample.int64_wrap
    [Probe.future; Probe.boundless] F64.zero Sample.start
  = filter_and_save_channels Sample.clock Sample.strftime_Ymd Sample.to_datetime
      Sample.timedelta_seconds Sample.to_numeric Sample.int64_wrap
      [Probe.future] F64.zero Sample.start.
Proof.
  split.
  - edestruct (uncastable_survivor_raises Sample.clock Sample.strftime_Ymd
                 Sample.to_datetime Sample.timedelta_seconds Sample.to_numeric
                 Sample.int64_wrap [Probe.future; Probe.boundless] thirty
                 Sample.start) as (_ & _ & Hinf & _).
    eapply Hinf.
    + discriminate.
    + vm_compute. reflexivity.
    + vm_compute. reflexivity.
    + right. left. reflexivity.
  - edestruct (uncastable_survivor_raises Sample.clock Sample.strftime_Ymd
                 Sample.to_datetime Sample.timedelta_seconds Sample.to_numeric
                 Sample.int64_wrap [Probe.future] F64.zero
                 Sample.start) as (_ & _ & _ & Hsame).
    eapply Hsame.
    + discriminate.
    + discriminate.
    + vm_compute. reflexivity.
    + vm_compute. reflexivity.
    + vm_compute. reflexivity.
Defined.


Lemma no_survivors_no_file_witness :
  exists w',
    filter_and_save_channels Sample.clock Sample.strftime_Ymd Sample.to_datetime
      Sample.timedelta_seconds Sample.to_numeric Sample.int64_wrap
      [Sample.over_30] thirty Sample.start = (Ok "", w') /\
    files w' = files Sample.start /\
    calls w' = calls Sample.start /\
    stdout w' = stdout Sample.start ++ [NoChannelsYounger thirty].
Proof.
  destruct (no_survivors_no_file Sample.clock Sample.isoformat Sample.strftime_Ymd
              Sample.to_datetime Sample.timedelta_seconds Sample.to_numeric
              Sample.int64_wrap Sample.list_of_set
              [Sample.over_30] thirty Sample.start)
    as (w' & Hrun & Hfiles & Hcalls & _ & Hout & _).
  - right. split; [reflexivity |]. eexists.
    split; [vm_compute; reflexivity | vm_compute; reflexivity].
  - exists w'. repeat split; assumption.
Defined.

Lemma aborted_collection_only_searched_witness :
  exists w',
    collect_new_channels Sample.clock Sample.isoformat Sample.list_of_set
      Probe.list_id search_queries 24 Sample.start = (Raise TypeError, w') /\
    calls w' = [search_request "first vlog" "2024-03-04T12:00:00.250000Z"] /\
    files w' = ∅.
Proof.
  destruct (collect_new_channels Sample.clock Sample.isoformat Sample.list_of_set
              Probe.list_id search_queries 24 Sample.start) as [[data | e] w'] eqn:Hrun;
    [vm_compute in Hrun; discriminate Hrun |].
  destruct (aborted_collection_only_searched Sample.clock Sample.isoformat
              Sample.list_of_set Probe.list_id search_queries 24 Sample.start
              e w' Hrun) as (-> & k & _ & _ & Hfiles & _).
  exists w'. split; [reflexivity |]. split; [| exact Hfiles].
  vm_compute in Hrun. injection Hrun as <-. reflexivity.
Defined.

Lemma main_changes_one_file_at_most_witness :
  exists r w',
    main Sample.clock Sample.isoformat Sample.strftime_Ymd Sample.to_datetime
      Sample.timedelta_seconds Sample.to_numeric Sample.int64_wrap
      Sample.list_of_set Sample.build Sample.no_env
      Sample.key_env Sample.start = (r, w') /\
    (files w' = ∅ \/
     r = Ok tt /\
     exists now t,
       files w' = <[filename_on Sample.strftime_Ymd now := t]> ∅ /\
       header t = frame_columns /\ body t <> []).
Proof.
  destruct (main Sample.clock Sample.isoformat Sample.strftime_Ymd
              Sample.to_datetime Sample.timedelta_seconds Sample.to_numeric
              Sample.int64_wrap Sample.list_of_set Sample.build
              Sample.no_env Sample.key_env Sample.start) as [r w'] eqn:Hmain.
  exists r, w'. split; [reflexivity |].
  apply (main_changes_one_file_at_most Sample.clock Sample.isoformat
           Sample.strftime_Ymd Sample.to_datetime Sample.timedelta_seconds
           Sample.to_numeric Sample.int64_wrap
           Sample.list_of_set Sample.build Sample.no_env Sample.key_env
           Sample.start r w' Hmain).
Defined.

Lemma search_new_videos_malformed_response_witness :
  search_new_videos Probe.bare_list "first vlog" "2024-03-04T12:00:00.250000Z"
    Sample.start
  = (Ok [],
     World 0 [search_request "first vlog" "2024-03-04T12:00:00.250000Z"]
       [SearchUnexpectedError "first vlog" AttributeError] ∅).
Proof.
  apply (search_new_videos_malformed_response Probe.bare_list "first vlog"
           "2024-03-04T12:00:00.250000Z" Sample.start (JList []) AttributeError).
  - reflexivity.
  - left. reflexivity.
Defined.

Lemma unreadable_hit_ends_the_scan_witness :
  search_new_videos Probe.one_bad_hit "first vlog" "2024-03-04T12:00:00.250000Z"
    Sample.start
  = (Ok [JStr "UC_alpha"],
     World 0 [search_request "first vlog" "2024-03-04T12:00:00.250000Z"]
       [SearchUnexpectedError "first vlog" AttributeError] ∅).
Proof.
  apply (unreadable_hit_ends_the_scan Probe.one_bad_hit "first vlog"
           "2024-03-04T12:00:00.250000Z" Sample.start
           (JDict [("items",
              JList [Sample.found "UC_alpha"; Probe.broken; Sample.found "UC_beta"])])
           [Sample.found "UC_alpha"] Probe.broken [Sample.found "UC_beta"]).
  - reflexivity.
  - reflexivity.
  - repeat constructor. eexists. reflexivity.
  - intros [l Hl]. discriminate Hl.
Defined.
